(** * Hash-tree-root construction of dynssz (treeroot.go)

    A shallow embedding of [buildRootFromType], [buildRootFromStruct] and
    [buildRootFromSlice] and the properties the specification states
    about them.

    The three Go functions walk a [reflect.Type] / [reflect.Value] pair
    and drive a [*Hasher].  The embedding keeps that shape:

    - [rtype] and [value] stand for what [reflect] exposes of a type
      and of a value; every [reflect] method the source calls is a
      partial function here, and the cases in which the Go method
      panics are the cases in which the function returns [None];
    - the hasher is an interface ([Class Hasher]): the source only ever
      calls its methods, and the sole observation it makes of the
      hasher is [Index];
    - a call ends in one of three ways ([outcome]): it returns [nil],
      it returns an error, or it panics.  The hasher is shared by
      reference, so an error return still carries the hasher as the
      call left it. *)

From Stdlib Require Import List ZArith Lia Bool String Ascii.
Import ListNotations.
Local Open Scope Z_scope.

Set Implicit Arguments.
Set Warnings "-register-all".

(** ** Types, as seen through [reflect.Type] *)

(** [reflect.Kind] and the equality test [==] on it. *)
Module reflect.

Inductive Kind : Type :=
| Invalid | Bool | Int | Int8 | Int16 | Int32 | Int64
| Uint | Uint8 | Uint16 | Uint32 | Uint64 | Uintptr
| Float32 | Float64 | Complex64 | Complex128
| Array | Chan | Func | Interface | Map | Ptr | Slice
| String | Struct | UnsafePointer.

Definition Kind_eqb (a b : Kind) : bool :=
  match a, b with
  | Invalid, Invalid | Bool, Bool | Int, Int | Int8, Int8 | Int16, Int16
  | Int32, Int32 | Int64, Int64 | Uint, Uint | Uint8, Uint8
  | Uint16, Uint16 | Uint32, Uint32 | Uint64, Uint64 | Uintptr, Uintptr
  | Float32, Float32 | Float64, Float64 | Complex64, Complex64
  | Complex128, Complex128 | Array, Array | Chan, Chan | Func, Func
  | Interface, Interface | Map, Map | Ptr, Ptr | Slice, Slice
  | String, String | Struct, Struct | UnsafePointer, UnsafePointer => true
  | _, _ => false
  end.

End reflect.

(** Kinds of the types that have neither element nor fields as far as
    this file is concerned. *)
Inductive PlainKind : Type :=
| PBool | PInt | PInt8 | PInt16 | PInt32 | PInt64
| PUint | PUint8 | PUint16 | PUint32 | PUint64 | PUintptr
| PFloat32 | PFloat64 | PComplex64 | PComplex128
| PChan | PFunc | PInterface | PMap | PString | PUnsafePointer.

Definition kindOfPlain (p : PlainKind) : reflect.Kind :=
  match p with
  | PBool => reflect.Bool | PInt => reflect.Int | PInt8 => reflect.Int8
  | PInt16 => reflect.Int16 | PInt32 => reflect.Int32
  | PInt64 => reflect.Int64 | PUint => reflect.Uint
  | PUint8 => reflect.Uint8 | PUint16 => reflect.Uint16
  | PUint32 => reflect.Uint32 | PUint64 => reflect.Uint64
  | PUintptr => reflect.Uintptr | PFloat32 => reflect.Float32
  | PFloat64 => reflect.Float64 | PComplex64 => reflect.Complex64
  | PComplex128 => reflect.Complex128 | PChan => reflect.Chan
  | PFunc => reflect.Func | PInterface => reflect.Interface
  | PMap => reflect.Map | PString => reflect.String
  | PUnsafePointer => reflect.UnsafePointer
  end.

(** A type descriptor: its name ([Type.Name()], empty for an unnamed
    type such as [[]byte]) and its structure.  Descriptors are finite
    trees; equality of descriptors stands for identity of Go types. *)
Inductive rtype : Type :=
| TPlain (name : string) (k : PlainKind)
| TPtr (name : string) (elem : rtype)
| TArray (name : string) (len : nat) (elem : rtype)
| TSlice (name : string) (elem : rtype)
| TStruct (name : string) (fields : list StructField)
with StructField : Type :=
| mkStructField (fieldName : string) (fieldType : rtype) (fieldTag : string).

Definition Field_Name (f : StructField) : string :=
  match f with mkStructField n _ _ => n end.
Definition Field_Type (f : StructField) : rtype :=
  match f with mkStructField _ t _ => t end.
Definition Field_Tag (f : StructField) : string :=
  match f with mkStructField _ _ g => g end.

(** [Type.Kind()] *)
Definition kindOf (t : rtype) : reflect.Kind :=
  match t with
  | TPlain _ k => kindOfPlain k
  | TPtr _ _ => reflect.Ptr
  | TArray _ _ _ => reflect.Array
  | TSlice _ _ => reflect.Slice
  | TStruct _ _ => reflect.Struct
  end.

(** [Type.Name()] *)
Definition typeName (t : rtype) : string :=
  match t with
  | TPlain n _ | TPtr n _ | TArray n _ _ | TSlice n _ | TStruct n _ => n
  end.

(** [Type.Elem()]; the method panics on a type without element. *)
Definition typeElem (t : rtype) : option rtype :=
  match t with
  | TPtr _ e | TArray _ _ e | TSlice _ e => Some e
  | _ => None
  end.

(** The idiom [if t.Kind() == reflect.Ptr { t = t.Elem() }]. *)
Definition derefType (t : rtype) : rtype :=
  match t with
  | TPtr _ e => e
  | _ => t
  end.

Definition isPtr (t : rtype) : bool := reflect.Kind_eqb (kindOf t) reflect.Ptr.

(** [Type.NumField()] with [Type.Field(i)] for each [i]; both panic on
    a type that is not a struct. *)
Definition typeFields (t : rtype) : option (list StructField) :=
  match t with
  | TStruct _ fs => Some fs
  | _ => None
  end.

Fixpoint rtype_eqb (a b : rtype) {struct a} : bool :=
  match a, b with
  | TPlain n k, TPlain n' k' =>
      String.eqb n n' && reflect.Kind_eqb (kindOfPlain k) (kindOfPlain k')
  | TPtr n e, TPtr n' e' => String.eqb n n' && rtype_eqb e e'
  | TArray n l e, TArray n' l' e' =>
      String.eqb n n' && Nat.eqb l l' && rtype_eqb e e'
  | TSlice n e, TSlice n' e' => String.eqb n n' && rtype_eqb e e'
  | TStruct n fs, TStruct n' fs' =>
      String.eqb n n' &&
      (fix fields_eqb (l l' : list StructField) {struct l} : bool :=
         match l, l' with
         | [], [] => true
         | mkStructField fn ft fg :: r, mkStructField fn' ft' fg' :: r' =>
             String.eqb fn fn' && rtype_eqb ft ft' && String.eqb fg fg'
             && fields_eqb r r'
         | _, _ => false
         end) fs fs'
  | _, _ => false
  end.

(** Modelled from the spec: [byteType], a package variable declared
    outside treeroot.go, with which line 174 compares an element type
    by identity.  The spec calls it the unsigned 8-bit unit, that is
    the predeclared type [uint8]. *)
Definition byteType : rtype := TPlain "uint8" PUint8.

(** ** Values, as seen through [reflect.Value] *)

(** [VInvalid] is the zero [reflect.Value], which is what [Elem()]
    returns on a nil pointer.  [VUint] holds a value of any unsigned
    kind, as [Value.Uint()] returns it.  [VSeq] is an array or a slice.
    [VOther] is a value of a kind whose content the source never
    reads.  Valid values are taken to be addressable and reached
    through exported fields, as they are when the traversal starts
    from a pointer to a value of an SSZ type, so that [Addr()] and
    [Interface()] panic on the zero Value only. *)
Inductive value : Type :=
| VInvalid
| VBool (b : bool)
| VUint (n : Z)
| VSeq (elems : list value)
| VStruct (fields : list value)
| VPtr (target : option value)
| VOther.

Definition isValid (v : value) : bool :=
  match v with VInvalid => false | _ => true end.

(** [Value.Elem()] on a pointer: the zero Value for nil; the method
    panics on a value that is neither pointer nor interface. *)
Definition valueElem (v : value) : option value :=
  match v with
  | VPtr (Some x) => Some x
  | VPtr None => Some VInvalid
  | _ => None
  end.

(** [Value.Bool()] *)
Definition valueBool (v : value) : option bool :=
  match v with VBool b => Some b | _ => None end.

(** [Value.Uint()] *)
Definition valueUint (v : value) : option Z :=
  match v with VUint n => Some n | _ => None end.

(** [Value.Len()] and [Value.Index(i)] for [i < Len()]. *)
Definition valueElems (v : value) : option (list value) :=
  match v with VSeq l => Some l | _ => None end.

(** [Value.Field(i)] *)
Definition valueField (v : value) (i : nat) : option value :=
  match v with VStruct fs => nth_error fs i | _ => None end.

Fixpoint allUint (l : list value) : option (list Z) :=
  match l with
  | [] => Some []
  | VUint n :: r =>
      match allUint r with Some bs => Some (n :: bs) | None => None end
  | _ :: _ => None
  end.

(** [Value.Bytes()]: the method looks at the value's own type, which is
    [t] here; it panics unless that is a slice or an (addressable)
    array whose element kind is [Uint8].  The source relies on the
    array case at line 200. *)
Definition valueBytes (t : rtype) (v : value) : option (list Z) :=
  match t, v with
  | TSlice _ e, VSeq l | TArray _ _ e, VSeq l =>
      if reflect.Kind_eqb (kindOf e) reflect.Uint8 then allUint l else None
  | _, _ => None
  end.

(** ** Size hints *)

(** Modelled from the spec: [sszSizeHint] and [sszMaxSizeHint], which
    are declared outside treeroot.go, are per-dimension sizes.  The
    file reads nothing but [size] of a max-size hint (a [uint64]) and
    hands size hints on unread. *)
Record sszSizeHint : Type := { hintSize : Z }.
Record sszMaxSizeHint : Type := { size : Z }.

(** ** Errors and outcomes *)

Inductive error : Type :=
| ExternalError (msg : string)
| FailedCheckingCompat (cause : error)
| FailedHashTreeRoot (cause : error)
| UnknownType (t : rtype)
| NonByteSliceInSlice (name : string).

(** What [getFastsszHashCompatibility] returns. *)
Record fastsszCompat : Type := {
  isHashRoot : bool;
  hasDynamicSpecSizes : bool;
  hasDynamicSpecMax : bool
}.

(** The receiver [d *DynSsz]: its two flags, and its methods that are
    defined outside treeroot.go, which the functions below only call.
    [Verbose] turns on diagnostic output and changes nothing else; the
    output is not modelled.
    [fastsszHashRoot t] is the method [HashTreeRoot] of [*t] when [*t]
    implements the interface [fastsszHashRoot], which is what the type
    assertion of line 39 finds out; its result is a [[32]byte]. *)
Record DynSsz : Type := {
  NoFastSsz : bool;
  Verbose : bool;
  getFastsszHashCompatibility :
    rtype -> list sszSizeHint -> list sszMaxSizeHint ->
    error + fastsszCompat;
  getSszFieldSize : StructField -> error + list sszSizeHint;
  getSszMaxSizeTag : StructField -> error + list sszMaxSizeHint;
  fastsszHashRoot : rtype -> option (value -> error + list Z)
}.

(** ** The hasher interface *)

(** The methods of [*Hasher] that treeroot.go calls.  [Hash()] is
    called for the diagnostic output only and is left out together
    with the output. *)
Class Hasher (H : Type) : Type := {
  Index : H -> nat;
  PutBytes : list Z -> H -> H;
  PutBitlist : list Z -> Z -> H -> H;
  PutBool : bool -> H -> H;
  PutUint8 : Z -> H -> H;
  PutUint16 : Z -> H -> H;
  PutUint32 : Z -> H -> H;
  PutUint64 : Z -> H -> H;
  Append : list Z -> H -> H;
  AppendBytes32 : list Z -> H -> H;
  AppendUint64 : Z -> H -> H;
  FillUpTo32 : H -> H;
  Merkleize : nat -> H -> H;
  MerkleizeWithMixin : nat -> Z -> Z -> H -> H
}.

(** How a call ends. *)
Inductive outcome (H : Type) : Type :=
| Done (hh : H)
| Fail (e : error) (hh : H)
| Panic.
Arguments Panic {H}.

Definition bind {H : Type} (o : outcome H) (k : H -> outcome H) : outcome H :=
  match o with
  | Done hh => k hh
  | Fail e hh => Fail e hh
  | Panic => Panic
  end.

Notation "o >>= k" := (bind o k) (at level 50, left associativity).

(** ** Integer arithmetic of the source *)

Definition wrap64 (z : Z) : Z := z mod 2 ^ 64.
Definition wrapTo (bits : Z) (z : Z) : Z := z mod 2 ^ bits.

(** [strings.Contains] *)
Fixpoint hasPrefix (p s : string) : bool :=
  match p, s with
  | EmptyString, _ => true
  | String a p', String b s' => Ascii.eqb a b && hasPrefix p' s'
  | String _ _, EmptyString => false
  end.

Fixpoint stringsContains (s sub : string) : bool :=
  hasPrefix sub s ||
  match s with
  | EmptyString => false
  | String _ s' => stringsContains s' sub
  end.

(** Modelled from the spec: [calculateLimit], which is defined outside
    treeroot.go.  For densely packed elements
    ([elementByteSize > 0], the only case in which line 222 calls it)
    the capacity is the number of 32-byte chunks that hold
    [maxElementCount] elements of [elementByteSize] bytes,
    [ceil (maxElementCount * elementByteSize / 32)], whatever the
    actual count; for [elementByteSize = 0] the hint itself. *)
Definition calculateLimit (maxCapacity numItems itemSize : Z) : Z :=
  if 0 <? itemSize then (maxCapacity * itemSize + 31) / 32 else maxCapacity.

(** ** The three functions of treeroot.go *)

Section TreeRoot.

Context {H : Type} {hasher : Hasher H}.
Variable d : DynSsz.

(** A [for] loop whose body may return from the function: the body
    runs on each item in turn, from index [i] on, and the first error
    or panic ends the loop. *)
Section Loop.

Context {A : Type}.
Variable body : nat -> A -> H -> outcome H.

Fixpoint forEachFrom (i : nat) (items : list A) (hh : H) : outcome H :=
  match items with
  | [] => Done hh
  | x :: rest =>
      match body i x hh with
      | Done hh' => forEachFrom (S i) rest hh'
      | Fail e hh' => Fail e hh'
      | Panic => Panic
      end
  end.

End Loop.

(** [if isPtr { v = v.Elem() }] *)
Definition derefValue (isPointer : bool) (v : value) : option value :=
  if isPointer then valueElem v else Some v.

(** Lines 28-32: the choice between the precompiled routine and the
    generic traversal. *)
Definition useFastSszFor (compat : fastsszCompat) (name : string) : bool :=
  let useFastSsz :=
    negb (NoFastSsz d) && isHashRoot compat
    && negb (hasDynamicSpecSizes compat) && negb (hasDynamicSpecMax compat) in
  if negb useFastSsz && isHashRoot compat
     && negb (hasDynamicSpecSizes compat) && negb (hasDynamicSpecMax compat)
     && String.eqb name "Int"
  then true
  else useFastSsz.

(** The functions call one another; [rec] stands for
    [buildRootFromType] in the bodies of the other two, and the knot
    is tied below. *)
Section Bodies.

Variable rec :
  rtype -> value -> H -> list sszSizeHint -> list sszMaxSizeHint -> nat ->
  outcome H.

(** Lines 115-141: the body of the loop over the fields. *)
Definition structFieldStep (sourceValue : value) (idt : nat)
    (i : nat) (field : StructField) (hh : H) : outcome H :=
  let fieldType := Field_Type field in
  match valueField sourceValue i with
  | None => Panic
  | Some fieldValue =>
      let fieldIsPtr := isPtr fieldType in
      match derefValue fieldIsPtr fieldValue with
      | None => Panic
      | Some fieldValue =>
          match getSszFieldSize d field with
          | inl err => Fail err hh
          | inr sizeHints =>
              match getSszMaxSizeTag d field with
              | inl err => Fail err hh
              | inr maxSizeHints =>
                  rec (derefType fieldType) fieldValue hh
                      sizeHints maxSizeHints (idt + 2)
              end
          end
      end
  end.

(** Lines 106-146. *)
Definition structBody (sourceType : rtype) (sourceValue : value) (hh : H)
    (idt : nat) : outcome H :=
  let hashIndex := Index hh in
  match derefValue (isPtr sourceType) sourceValue with
  | None => Panic
  | Some sourceValue =>
      match derefType sourceType with
      | TStruct _ fields =>
          forEachFrom (structFieldStep sourceValue idt) 0 fields hh
          >>= fun hh => Done (Merkleize hashIndex hh)
      | _ => Panic
      end
  end.

(** How the [switch] of lines 159-217 is left: by a [return], or by
    falling out of it with the hasher and [itemSize]. *)
Inductive switchExit : Type :=
| Return (o : outcome H)
| Continue (hh : H) (itemSize : Z).

Definition afterLoop (o : outcome H) (itemSize : Z) : switchExit :=
  match o with
  | Done hh => Continue hh itemSize
  | _ => Return o
  end.

(** Lines 162-170. *)
Definition structElemStep (fieldIsPtr : bool) (fieldType : rtype) (idt : nat)
    (i : nat) (fieldValue : value) (hh : H) : outcome H :=
  match derefValue fieldIsPtr fieldValue with
  | None => Panic
  | Some fieldValue => structBody fieldType fieldValue hh (idt + 2)
  end.

(** Lines 176-193. *)
Definition byteSeqElemStep (fieldIsPtr : bool) (fieldType : rtype)
    (maxSizeHints : list sszMaxSizeHint)
    (i : nat) (fieldValue : value) (hh : H) : outcome H :=
  let sliceSubIndex := Index hh in
  match derefValue fieldIsPtr fieldValue with
  | None => Panic
  | Some fieldValue =>
      match valueBytes fieldType fieldValue with
      | None => Panic
      | Some fieldBytes =>
          let byteLen := Z.of_nat (List.length fieldBytes) in
          match maxSizeHints with
          | _ :: hint1 :: _ =>
              Done (MerkleizeWithMixin sliceSubIndex byteLen
                      (wrap64 (size hint1 + 31) / 32)
                      (AppendBytes32 fieldBytes hh))
          | _ => Done (PutBytes fieldBytes hh)
          end
      end
  end.

(** Lines 209-214. *)
Definition uint64ElemStep (fieldIsPtr : bool)
    (i : nat) (fieldValue : value) (hh : H) : outcome H :=
  match derefValue fieldIsPtr fieldValue with
  | None => Panic
  | Some fieldValue =>
      match valueUint fieldValue with
      | None => Panic
      | Some n => Done (AppendUint64 (wrap64 n) hh)
      end
  end.

(** Lines 159-217: the [switch] on the kind of the element type. *)
Definition sliceSwitch (sourceType : rtype) (sourceValue : value)
    (fieldIsPtr : bool) (fieldType : rtype) (elems : list value) (hh : H)
    (maxSizeHints : list sszMaxSizeHint) (isArray : bool) (idt : nat)
    : switchExit :=
  match fieldType with
  | TStruct _ _ =>
      afterLoop (forEachFrom (structElemStep fieldIsPtr fieldType idt)
                             0%nat elems hh) 0
  | TArray _ _ itemType | TSlice _ itemType =>
      if rtype_eqb itemType byteType then
        afterLoop (forEachFrom
                     (byteSeqElemStep fieldIsPtr fieldType maxSizeHints)
                     0%nat elems hh) 0
      else Return (Fail (NonByteSliceInSlice (typeName itemType)) hh)
  | TPlain _ PUint8 =>
      match valueBytes sourceType sourceValue with
      | None => Return Panic
      | Some bytes =>
          if isArray then Return (Done (PutBytes bytes hh))
          else Continue (FillUpTo32 (Append bytes hh)) 1
      end
  | TPlain _ PUint64 =>
      afterLoop (forEachFrom (uint64ElemStep fieldIsPtr) 0%nat elems hh) 8
  | _ => Continue hh 0
  end.

(** Lines 148-232. *)
Definition sliceBody (sourceType : rtype) (sourceValue : value) (hh : H)
    (maxSizeHints : list sszMaxSizeHint) (isArray : bool) (idt : nat)
    : outcome H :=
  match sourceType with
  | TPtr _ elemType | TArray _ _ elemType | TSlice _ elemType =>
      let fieldIsPtr := isPtr elemType in
      let fieldType := derefType elemType in
      let subIndex := Index hh in
      match valueElems sourceValue with
      | None => Panic
      | Some elems =>
          let sliceLen := List.length elems in
          match sliceSwitch sourceType sourceValue fieldIsPtr fieldType
                            elems hh maxSizeHints isArray idt with
          | Return o => o
          | Continue hh itemSize =>
              match maxSizeHints with
              | hint0 :: _ =>
                  let limit :=
                    if 0 <? itemSize
                    then calculateLimit (size hint0) (Z.of_nat sliceLen)
                                        itemSize
                    else size hint0 in
                  Done (MerkleizeWithMixin subIndex (Z.of_nat sliceLen)
                                           limit hh)
              | [] => Done (Merkleize subIndex hh)
              end
          end
      end
  | _ => Panic
  end.

(** Lines 51-97: the generic traversal. *)
Definition genericRoot (sourceType : rtype) (sourceValue : value) (hh : H)
    (maxSizeHints : list sszMaxSizeHint) (idt : nat) : outcome H :=
  if stringsContains (typeName sourceType) "Bitlist" then
    match valueBytes sourceType sourceValue with
    | None => Panic
    | Some bytes =>
        let maxSize :=
          match maxSizeHints with
          | hint0 :: _ => size hint0
          | [] => wrap64 (Z.of_nat (List.length bytes) * 8)
          end in
        Done (PutBitlist bytes maxSize hh)
    end
  else
    match sourceType with
    | TStruct _ _ => structBody sourceType sourceValue hh idt
    | TArray _ _ _ => sliceBody sourceType sourceValue hh maxSizeHints true idt
    | TSlice _ _ => sliceBody sourceType sourceValue hh maxSizeHints false idt
    | TPlain _ PBool =>
        match valueBool sourceValue with
        | None => Panic
        | Some b => Done (PutBool b hh)
        end
    | TPlain _ PUint8 =>
        match valueUint sourceValue with
        | None => Panic
        | Some n => Done (PutUint8 (wrapTo 8 n) hh)
        end
    | TPlain _ PUint16 =>
        match valueUint sourceValue with
        | None => Panic
        | Some n => Done (PutUint16 (wrapTo 16 n) hh)
        end
    | TPlain _ PUint32 =>
        match valueUint sourceValue with
        | None => Panic
        | Some n => Done (PutUint32 (wrapTo 32 n) hh)
        end
    | TPlain _ PUint64 =>
        match valueUint sourceValue with
        | None => Panic
        | Some n => Done (PutUint64 (wrapTo 64 n) hh)
        end
    | _ => Fail (UnknownType sourceType) hh
    end.

(** Lines 12-104, after the pointer has been followed. *)
Definition typeBody (sourceType : rtype) (sourceValue : value) (hh : H)
    (sizeHints : list sszSizeHint) (maxSizeHints : list sszMaxSizeHint)
    (idt : nat) : outcome H :=
  match getFastsszHashCompatibility d sourceType sizeHints maxSizeHints with
  | inl err => Fail (FailedCheckingCompat err) hh
  | inr fastsszCompat =>
      let useFastSsz := useFastSszFor fastsszCompat (typeName sourceType) in
      if useFastSsz then
        if isValid sourceValue then
          match fastsszHashRoot d sourceType with
          | Some HashTreeRoot =>
              match HashTreeRoot sourceValue with
              | inl err => Fail (FailedHashTreeRoot err) hh
              | inr hashBytes => Done (PutBytes hashBytes hh)
              end
          | None => genericRoot sourceType sourceValue hh maxSizeHints idt
          end
        else Panic
      else genericRoot sourceType sourceValue hh maxSizeHints idt
  end.

End Bodies.

Fixpoint buildRootFromType (sourceType : rtype) (sourceValue : value)
    (hh : H) (sizeHints : list sszSizeHint)
    (maxSizeHints : list sszMaxSizeHint) (idt : nat) {struct sourceType}
    : outcome H :=
  match derefValue (isPtr sourceType) sourceValue with
  | None => Panic
  | Some sourceValue =>
      typeBody buildRootFromType (derefType sourceType) sourceValue hh
               sizeHints maxSizeHints idt
  end.

Definition buildRootFromStruct : rtype -> value -> H -> nat -> outcome H :=
  structBody buildRootFromType.

Definition buildRootFromSlice :
    rtype -> value -> H -> list sszMaxSizeHint -> bool -> nat -> outcome H :=
  sliceBody buildRootFromType.

End TreeRoot.

(** ** Well-typed values *)

(** [conforms t v]: [v] is a value a Go program can hold at type [t]. *)
Fixpoint conforms (t : rtype) (v : value) {struct t} : bool :=
  match t, v with
  | TPlain _ PBool, VBool _ => true
  | TPlain _ PUint8, VUint n => (0 <=? n) && (n <? 2 ^ 8)
  | TPlain _ PUint16, VUint n => (0 <=? n) && (n <? 2 ^ 16)
  | TPlain _ PUint32, VUint n => (0 <=? n) && (n <? 2 ^ 32)
  | TPlain _ (PUint | PUint64 | PUintptr), VUint n =>
      (0 <=? n) && (n <? 2 ^ 64)
  | TPlain _ (PBool | PUint8 | PUint16 | PUint32 | PUint | PUint64
              | PUintptr), _ => false
  | TPlain _ _, VOther => true
  | TPtr _ _, VPtr None => true
  | TPtr _ e, VPtr (Some x) => conforms e x
  | TArray _ n e, VSeq l =>
      Nat.eqb (List.length l) n && forallb (conforms e) l
  | TSlice _ e, VSeq l => forallb (conforms e) l
  | TStruct _ fs, VStruct vs =>
      (fix fields_ok (l : list StructField) (ws : list value) {struct l}
         : bool :=
         match l, ws with
         | [], [] => true
         | mkStructField _ ft _ :: r, w :: ws' =>
             conforms ft w && fields_ok r ws'
         | _, _ => false
         end) fs vs
  | _, _ => false
  end.

(** ** The hash-tree buffer *)

(** Modelled from the spec: the methods of [Hasher], which is defined
    outside treeroot.go.  The buffer is an append-only sequence of
    bytes read in 32-byte chunks, whose index is its length;
    merkleization combines the chunks from an index on into one root by
    a balanced binary hash tree with zero-chunk padding to a power of
    two, the capacity bounding the padding depth; the mixin hashes the
    root with the encoded length; scalars are written little-endian and
    padded to a chunk; [PutBytes] writes the packed-chunk Merkle root
    of the bytes; [PutBitlist] writes the root of the bits below the
    delimiting bit, mixed with their number.  The hash function itself
    is a parameter, [hashFn], from 64 bytes to a digest. *)
Section BufferHasher.

Variable hashFn : list Z -> list Z.

Definition zeroBytes (n : nat) : list Z := repeat 0 n.

(** A digest and a chunk are 32 bytes. *)
Definition chunk32 (l : list Z) : list Z := firstn 32 (l ++ zeroBytes 32).

Definition hashPair (a b : list Z) : list Z := chunk32 (hashFn (a ++ b)).

Fixpoint zeroHash (depth : nat) : list Z :=
  match depth with
  | O => zeroBytes 32
  | S k => hashPair (zeroHash k) (zeroHash k)
  end.

Fixpoint chunksOf (fuel : nat) (l : list Z) : list (list Z) :=
  match fuel with
  | O => []
  | S k =>
      match l with
      | [] => []
      | _ :: _ => chunk32 (firstn 32 l) :: chunksOf k (skipn 32 l)
      end
  end.

(** The bytes as 32-byte chunks, the last one zero-padded. *)
Definition pack (l : list Z) : list (list Z) := chunksOf (List.length l) l.

Fixpoint hashLayer (zero : list Z) (cs : list (list Z)) : list (list Z) :=
  match cs with
  | [] => []
  | a :: rest =>
      match rest with
      | [] => [hashPair a zero]
      | b :: rest' => hashPair a b :: hashLayer zero rest'
      end
  end.

Fixpoint merkleLevels (depth level : nat) (cs : list (list Z)) : list Z :=
  match cs with
  | [] => zeroHash (level + depth)
  | c :: _ =>
      match depth with
      | O => c
      | S k => merkleLevels k (S level) (hashLayer (zeroHash level) cs)
      end
  end.

(** The root of the chunks in a tree of [limit] leaves, or of as many
    leaves as there are chunks when [limit] is 0. *)
Definition merkleRoot (limit : Z) (cs : list (list Z)) : list Z :=
  let capacity := if limit =? 0 then Z.of_nat (List.length cs) else limit in
  merkleLevels (Z.to_nat (Z.log2_up capacity)) 0 cs.

Fixpoint leBytes (n : nat) (v : Z) : list Z :=
  match n with
  | O => []
  | S k => v mod 256 :: leBytes k (v / 256)
  end.

Fixpoint leValue (bs : list Z) : Z :=
  match bs with
  | [] => 0
  | b :: rest => b + 256 * leValue rest
  end.

(** Modelled from the spec: [AppendBytes32] packs the bytes into whole
    chunks. *)
Definition bufAppendBytes32 (b : list Z) (buf : list Z) : list Z :=
  buf ++ List.concat (pack b).

(** Modelled from the spec: [FillUpTo32] pads the last chunk to 32
    bytes. *)
Definition bufFillUpTo32 (buf : list Z) : list Z :=
  buf ++ zeroBytes (Nat.modulo (32 - Nat.modulo (List.length buf) 32) 32).

(** Modelled from the spec: [Merkleize] combines the chunks written
    from [indx] on into a single root, with no mixin. *)
Definition bufMerkleize (indx : nat) (buf : list Z) : list Z :=
  firstn indx buf ++ merkleRoot 0 (pack (skipn indx buf)).

(** Modelled from the spec: [MerkleizeWithMixin] combines the chunks
    written from [indx] on in a tree of [limit] leaves and mixes the
    length [num] into the root. *)
Definition bufMerkleizeWithMixin (indx : nat) (num limit : Z) (buf : list Z)
    : list Z :=
  firstn indx buf
  ++ hashPair (merkleRoot limit (pack (skipn indx buf)))
              (chunk32 (leBytes 8 num)).

(** Modelled from the spec: [PutBytes] writes the zero-padded
    packed-chunk Merkle root of the bytes, with no mixin; for a 32-byte
    root that is the root itself. *)
Definition bufPutBytes (b : list Z) (buf : list Z) : list Z :=
  buf ++ merkleRoot 0 (pack b).

(** Modelled from the spec: a bitlist is a byte-packed bitstring; its
    length is the number of bits below the delimiting bit, and its
    content those bits. *)
Definition bitlistLen (bb : list Z) : Z :=
  let n := leValue bb in if n <=? 0 then 0 else Z.log2 n.

Definition bitlistBits (bb : list Z) : list Z :=
  let len := bitlistLen bb in
  leBytes (Z.to_nat ((len + 7) / 8)) (leValue bb - 2 ^ len).

(** Modelled from the spec: [PutBitlist] writes the root of the pure
    byte chunks mixed with the length in bits, under a bound of
    [maxSize] bits. *)
Definition bufPutBitlist (bb : list Z) (maxSize : Z) (buf : list Z)
    : list Z :=
  bufMerkleizeWithMixin (List.length buf) (bitlistLen bb)
                        ((maxSize + 255) / 256)
                        (bufAppendBytes32 (bitlistBits bb) buf).

(** Modelled from the spec: a scalar is written little-endian, padded
    to a chunk. *)
Definition bufPutScalar (width : nat) (v : Z) (buf : list Z) : list Z :=
  buf ++ chunk32 (leBytes width v).

(** Modelled from the spec: the hasher over the byte buffer;
    [Index] is the length of the buffer, [Append] and [AppendUint64]
    pack densely. *)
Definition BufferHasher : Hasher (list Z) := {|
  Index := @List.length Z;
  PutBytes := bufPutBytes;
  PutBitlist := bufPutBitlist;
  PutBool := fun b => bufPutScalar 1 (if b then 1 else 0);
  PutUint8 := bufPutScalar 1;
  PutUint16 := bufPutScalar 2;
  PutUint32 := bufPutScalar 4;
  PutUint64 := bufPutScalar 8;
  Append := fun b buf => buf ++ b;
  AppendBytes32 := bufAppendBytes32;
  AppendUint64 := fun v buf => buf ++ leBytes 8 v;
  FillUpTo32 := bufFillUpTo32;
  Merkleize := bufMerkleize;
  MerkleizeWithMixin := bufMerkleizeWithMixin
|}.

End BufferHasher.

(** ** A hasher that records the calls made on it *)

Inductive HasherCall : Type :=
| CallPutBytes (b : list Z)
| CallPutBitlist (bb : list Z) (maxSize : Z)
| CallPutBool (b : bool)
| CallPutUint8 (v : Z)
| CallPutUint16 (v : Z)
| CallPutUint32 (v : Z)
| CallPutUint64 (v : Z)
| CallAppend (b : list Z)
| CallAppendBytes32 (b : list Z)
| CallAppendUint64 (v : Z)
| CallFillUpTo32
| CallMerkleize (indx : nat)
| CallMerkleizeWithMixin (indx : nat) (num limit : Z).

Section RecordingHasher.

Context {H : Type} (base : Hasher H).

Definition recording (c : HasherCall) (f : H -> H) (s : H * list HasherCall)
    : H * list HasherCall :=
  (f (fst s), snd s ++ [c]).

(** Every method acts on the underlying hasher and notes the call. *)
Definition RecordingHasher : Hasher (H * list HasherCall) := {|
  Index := fun s => Index (fst s);
  PutBytes := fun b => recording (CallPutBytes b) (PutBytes b);
  PutBitlist := fun bb m => recording (CallPutBitlist bb m) (PutBitlist bb m);
  PutBool := fun b => recording (CallPutBool b) (PutBool b);
  PutUint8 := fun v => recording (CallPutUint8 v) (PutUint8 v);
  PutUint16 := fun v => recording (CallPutUint16 v) (PutUint16 v);
  PutUint32 := fun v => recording (CallPutUint32 v) (PutUint32 v);
  PutUint64 := fun v => recording (CallPutUint64 v) (PutUint64 v);
  Append := fun b => recording (CallAppend b) (Append b);
  AppendBytes32 := fun b => recording (CallAppendBytes32 b) (AppendBytes32 b);
  AppendUint64 := fun v => recording (CallAppendUint64 v) (AppendUint64 v);
  FillUpTo32 := recording CallFillUpTo32 FillUpTo32;
  Merkleize := fun i => recording (CallMerkleize i) (Merkleize i);
  MerkleizeWithMixin := fun i n l =>
    recording (CallMerkleizeWithMixin i n l) (MerkleizeWithMixin i n l)
|}.

End RecordingHasher.

(** The calls a run that returned [nil] has made on the hasher. *)
Definition callsMade {H : Type} (o : outcome (H * list HasherCall))
    : option (list HasherCall) :=
  match o with
  | Done s => Some (snd s)
  | _ => None
  end.

(** ** Auxiliary definitions used in the statements *)

(** The generic traversal runs when the precompiled routine is not
    chosen (line 51 after line 28-32), or when it is chosen and the
    addressed value does not implement [fastsszHashRoot] (line 47). *)
Definition takesGenericPath (d : DynSsz) (compat : fastsszCompat)
    (t : rtype) (v : value) : bool :=
  negb (useFastSszFor d compat (typeName t))
  || (isValid v
      && match fastsszHashRoot d t with Some _ => false | None => true end).

(** The kinds the [switch] of line 65 has a case for. *)
Definition hasHashingRule (k : reflect.Kind) : bool :=
  match k with
  | reflect.Struct | reflect.Array | reflect.Slice | reflect.Bool
  | reflect.Uint8 | reflect.Uint16 | reflect.Uint32 | reflect.Uint64 => true
  | _ => false
  end.

(** [itemSize] as the [switch] of line 159 leaves it. *)
Definition elementByteSize (fieldType : rtype) : Z :=
  match kindOf fieldType with
  | reflect.Uint8 => 1
  | reflect.Uint64 => 8
  | _ => 0
  end.

(** [ceil (a / b)] *)
Definition ceilDiv (a b : Z) : Z := (a + (b - 1)) / b.

(** Arrays and slices. *)
Definition isSequence (t : rtype) : bool :=
  match kindOf t with
  | reflect.Array | reflect.Slice => true
  | _ => false
  end.

(** The bytes of each element of a sequence of byte sequences
    (lines 178-183). *)
Fixpoint elemsBytes (fieldIsPtr : bool) (fieldType : rtype)
    (elems : list value) : option (list (list Z)) :=
  match elems with
  | [] => Some []
  | e :: rest =>
      match derefValue fieldIsPtr e with
      | None => None
      | Some fv =>
          match valueBytes fieldType fv, elemsBytes fieldIsPtr fieldType rest with
          | Some b, Some bs => Some (b :: bs)
          | _, _ => None
          end
      end
  end.

(** What lines 188-193 do with the bytes of one element. *)
Definition writeByteSeq {H : Type} {hasher : Hasher H}
    (maxSizeHints : list sszMaxSizeHint) (hh : H) (fieldBytes : list Z) : H :=
  match maxSizeHints with
  | _ :: hint1 :: _ =>
      MerkleizeWithMixin (Index hh) (Z.of_nat (List.length fieldBytes))
                         (wrap64 (size hint1 + 31) / 32)
                         (AppendBytes32 fieldBytes hh)
  | _ => PutBytes fieldBytes hh
  end.

(** A call appends one chunk: the buffer it leaves is the buffer it
    found followed by 32 bytes. *)
Definition appendsOneChunk (before after : list Z) : Prop :=
  exists root : list Z, List.length root = 32%nat /\ after = before ++ root.

Definition returnsOneChunk (before : list Z) (o : outcome (list Z)) : Prop :=
  forall after, o = Done after -> appendsOneChunk before after.

(** Chunks are 32 bytes each. *)
Definition allChunks (cs : list (list Z)) : Prop :=
  Forall (fun c => List.length c = 32%nat) cs.

(** The buffer a call leaves starts with the buffer it found. *)
Definition extends (before after : list Z) : Prop :=
  exists more : list Z, after = before ++ more.

(** The size of a type descriptor. *)
Fixpoint tsize (t : rtype) : nat :=
  match t with
  | TPlain _ _ => 1%nat
  | TPtr _ e | TArray _ _ e | TSlice _ e => S (tsize e)
  | TStruct _ fs =>
      S ((fix fields_size (l : list StructField) : nat :=
            match l with
            | [] => 0%nat
            | f :: r => (tsize (Field_Type f) + fields_size r)%nat
            end) fs)
  end.

(** [rec] appends one chunk whenever it returns, on the types below
    [bound]. *)
Definition recOk
    (rec : rtype -> value -> list Z -> list sszSizeHint ->
           list sszMaxSizeHint -> nat -> outcome (list Z))
    (bound : nat) : Prop :=
  forall t, (tsize t < bound)%nat ->
  forall v buf sizeHints maxSizeHints idt,
    returnsOneChunk buf (rec t v buf sizeHints maxSizeHints idt).

(** ** Auxiliary definitions for the further properties *)

(** [rec1] and [rec2] return the same on the types below [bound] that
    satisfy [P], whatever the nesting depths they are given. *)
Definition recAgree {H : Type} (P : rtype -> Prop)
    (rec1 rec2 : rtype -> value -> H -> list sszSizeHint ->
                 list sszMaxSizeHint -> nat -> outcome H)
    (bound : nat) : Prop :=
  forall t, (tsize t < bound)%nat -> P t ->
  forall v hh sizeHints maxSizeHints idt1 idt2,
    rec1 t v hh sizeHints maxSizeHints idt1
    = rec2 t v hh sizeHints maxSizeHints idt2.

(** Some type in the descriptor is named [Int]. *)
Fixpoint namesInt (t : rtype) : bool :=
  String.eqb (typeName t) "Int"
  || match t with
     | TPlain _ _ => false
     | TPtr _ e | TArray _ _ e | TSlice _ e => namesInt e
     | TStruct _ fs => existsb (fun f => namesInt (Field_Type f)) fs
     end.

(** The element kinds the [switch] of line 159 has no case for. *)
Definition elementIgnored (fieldType : rtype) : bool :=
  match kindOf fieldType with
  | reflect.Struct | reflect.Array | reflect.Slice
  | reflect.Uint8 | reflect.Uint64 => false
  | _ => true
  end.

(** How lines 219-229 end a call, given the capacity. *)
Definition finishSequence {H : Type} {hasher : Hasher H}
    (maxSizeHints : list sszMaxSizeHint) (subIndex : nat) (sliceLen : nat)
    (limit : Z -> Z) (hh : H) : H :=
  match maxSizeHints with
  | hint0 :: _ =>
      MerkleizeWithMixin subIndex (Z.of_nat sliceLen) (limit (size hint0)) hh
  | [] => Merkleize subIndex hh
  end.

(** The fields of a struct type, the pointer followed, satisfy [P]. *)
Definition fieldsSatisfy (P : rtype -> Prop) (t : rtype) : Prop :=
  forall n fs f,
    derefType t = TStruct n fs -> In f fs -> P (derefType (Field_Type f)).

(** The same for the element type of a sequence type. *)
Definition elementFieldsSatisfy (P : rtype -> Prop) (t : rtype) : Prop :=
  forall e, typeElem t = Some e -> fieldsSatisfy P (derefType e).

(** No nil pointer and no zero Value anywhere in the value. *)
Fixpoint fullyValid (v : value) : bool :=
  match v with
  | VInvalid => false
  | VPtr None => false
  | VPtr (Some x) => fullyValid x
  | VSeq l => forallb fullyValid l
  | VStruct l => forallb fullyValid l
  | _ => true
  end.

(** The kinds of line 83-92. *)
Definition scalarKind (k : PlainKind) : bool :=
  match k with
  | PBool | PUint8 | PUint16 | PUint32 | PUint64 => true
  | _ => false
  end.

(** Types on which the generic traversal has a rule at every level:
    scalars; structs of such types, a field possibly a pointer to one;
    sequences of structs, of byte sequences, of bytes, of any other
    plain kind, the elements possibly pointers except for bytes; and,
    under a name containing [Bitlist], byte sequences only. *)
Fixpoint hashable (t : rtype) : bool :=
  if stringsContains (typeName t) "Bitlist" then
    match t with
    | TArray _ _ e | TSlice _ e => reflect.Kind_eqb (kindOf e) reflect.Uint8
    | _ => false
    end
  else
    match t with
    | TPlain _ k => scalarKind k
    | TPtr _ _ => false
    | TArray _ _ e | TSlice _ e =>
        match derefType e with
        | TStruct _ fs =>
            forallb (fun f => hashable (derefType (Field_Type f))) fs
        | TArray _ _ it | TSlice _ it => rtype_eqb it byteType
        | TPlain _ PUint8 => negb (isPtr e)
        | TPlain _ _ => true
        | TPtr _ _ => true
        end
    | TStruct _ fs =>
        forallb (fun f => hashable (derefType (Field_Type f))) fs
    end.

(** [rec] returns without error on the well-typed, nil-free values of
    the hashable types below [bound]. *)
Definition recTotal {H : Type}
    (rec : rtype -> value -> H -> list sszSizeHint ->
           list sszMaxSizeHint -> nat -> outcome H)
    (bound : nat) : Prop :=
  forall t, (tsize t < bound)%nat -> hashable t = true ->
  forall v, conforms t v = true -> fullyValid v = true ->
  forall hh sizeHints maxSizeHints idt,
    exists hh', rec t v hh sizeHints maxSizeHints idt = Done hh'.

(** What lines 83-92 write for a scalar. *)
Definition writeScalar {H : Type} {hasher : Hasher H}
    (k : PlainKind) (v : value) (hh : H) : option H :=
  match k, v with
  | PBool, VBool b => Some (PutBool b hh)
  | PUint8, VUint n => Some (PutUint8 n hh)
  | PUint16, VUint n => Some (PutUint16 n hh)
  | PUint32, VUint n => Some (PutUint32 n hh)
  | PUint64, VUint n => Some (PutUint64 n hh)
  | _, _ => None
  end.

(** Where an error comes from: the oracle and the precompiled routine,
    whose errors are wrapped; the two errors of treeroot.go itself; and
    the resolvers of the field hints, whose errors are passed on. *)
Definition errorOrigin (d : DynSsz) (e : error) : Prop :=
  (exists t sh mh cause,
      getFastsszHashCompatibility d t sh mh = inl cause /\
      e = FailedCheckingCompat cause) \/
  (exists t routine v cause,
      fastsszHashRoot d t = Some routine /\ routine v = inl cause /\
      e = FailedHashTreeRoot cause) \/
  (exists t, e = UnknownType t) \/
  (exists name, e = NonByteSliceInSlice name) \/
  (exists f, getSszFieldSize d f = inl e) \/
  (exists f, getSszMaxSizeTag d f = inl e).

Definition failsWithOrigin {H : Type} (d : DynSsz) (o : outcome H) : Prop :=
  forall e hh, o = Fail e hh -> errorOrigin d e.

Definition recFails {H : Type} (d : DynSsz)
    (rec : rtype -> value -> H -> list sszSizeHint ->
           list sszMaxSizeHint -> nat -> outcome H)
    (bound : nat) : Prop :=
  forall t, (tsize t < bound)%nat ->
  forall v hh sizeHints maxSizeHints idt,
    failsWithOrigin d (rec t v hh sizeHints maxSizeHints idt).

(** ** Sample types and values *)

Module Sample.

(** A stand-in for the hash function. *)
Definition hashFn (l : list Z) : list Z :=
  map (fun x => (x + 1) mod 256) (firstn 32 l).

Definition buffer : Hasher (list Z) := BufferHasher hashFn.
Definition recorder : Hasher (list Z * list HasherCall) :=
  RecordingHasher buffer.
Definition fresh : list Z * list HasherCall := ([], []).

Definition verdict (hashRoot sizes maxes : bool) : fastsszCompat :=
  {| isHashRoot := hashRoot; hasDynamicSpecSizes := sizes;
     hasDynamicSpecMax := maxes |}.

Definition maxTag (f : StructField) : error + list sszMaxSizeHint :=
  inr (if String.eqb (Field_Tag f) "ssz-max:4" then [{| size := 4 |}] else []).

(** No type has a precompiled routine. *)
Definition plain (noFastSsz : bool) : DynSsz := {|
  NoFastSsz := noFastSsz;
  Verbose := false;
  getFastsszHashCompatibility := fun _ _ _ => inr (verdict false false false);
  getSszFieldSize := fun _ => inr [];
  getSszMaxSizeTag := maxTag;
  fastsszHashRoot := fun _ => None
|}.

(** Every type has a precompiled routine, which returns [root]; the
    verdict on every type is [compat]. *)
Definition root : list Z := repeat 9 32.

Definition precompiled (noFastSsz : bool) (compat : fastsszCompat)
    : DynSsz := {|
  NoFastSsz := noFastSsz;
  Verbose := false;
  getFastsszHashCompatibility := fun _ _ _ => inr compat;
  getSszFieldSize := fun _ => inr [];
  getSszMaxSizeTag := maxTag;
  fastsszHashRoot := fun _ => Some (fun _ => inr root)
|}.

Definition uint8T : rtype := TPlain "uint8" PUint8.
Definition uint64T : rtype := TPlain "uint64" PUint64.
Definition float64T : rtype := TPlain "float64" PFloat64.

(** [type Int [4]uint64] *)
Definition IntT : rtype := TArray "Int" 4 uint64T.
Definition IntV : value := VSeq [VUint 1; VUint 0; VUint 0; VUint 0].

(** [struct{}] and a nil pointer to it *)
Definition EmptyT : rtype := TStruct "Empty" [].

(** [[4]byte] *)
Definition bytes4T : rtype := TArray "" 4 uint8T.
Definition bytes4V : value := VSeq [VUint 1; VUint 2; VUint 3; VUint 4].

(** [[]uint64] *)
Definition uint64sT : rtype := TSlice "" uint64T.
Definition uint64sV : value := VSeq [VUint 1; VUint 2].

(** [type MyByte uint8] and [[][]MyByte] *)
Definition MyByteT : rtype := TPlain "MyByte" PUint8.
Definition myBytesT : rtype := TSlice "" (TSlice "" MyByteT).
Definition myBytesV : value := VSeq [VSeq [VUint 1]].

(** [[][]byte] *)
Definition byteSeqsT : rtype := TSlice "" (TSlice "" uint8T).
Definition byteSeqsV : value := VSeq [VSeq [VUint 1; VUint 2]; VSeq [VUint 3]].

(** [type Bitlist []byte] *)
Definition BitlistT : rtype := TSlice "Bitlist" uint8T.
Definition BitlistV : value := VSeq [VUint 5].

(** [struct { A uint8; B []uint64 `ssz-max:"4"` }] *)
Definition pairT : rtype :=
  TStruct "Pair" [mkStructField "A" uint8T "";
                  mkStructField "B" uint64sT "ssz-max:4"].
Definition pairV : value := VStruct [VUint 7; uint64sV].

(** Every type has a precompiled routine, which fails. *)
Definition failing (noFastSsz : bool) : DynSsz := {|
  NoFastSsz := noFastSsz;
  Verbose := false;
  getFastsszHashCompatibility :=
    fun _ _ _ => inr (verdict true false false);
  getSszFieldSize := fun _ => inr [];
  getSszMaxSizeTag := maxTag;
  fastsszHashRoot := fun _ => Some (fun _ => inl (ExternalError "routine"))
|}.

(** Only [target] has a precompiled routine, and a favourable verdict. *)
Definition onlyFor (target : rtype) : DynSsz := {|
  NoFastSsz := false;
  Verbose := false;
  getFastsszHashCompatibility := fun t _ _ =>
    inr (verdict (rtype_eqb t target) false false);
  getSszFieldSize := fun _ => inr [];
  getSszMaxSizeTag := maxTag;
  fastsszHashRoot := fun t =>
    if rtype_eqb t target then Some (fun _ => inr root) else None
|}.

End Sample.

(** * Properties *)

(** ** The dispatch of [buildRootFromType] *)

Section Dispatch.

Context {H : Type} {hasher : Hasher H}.
Variable d : DynSsz.

Lemma buildRootFromType_unfold sourceType sourceValue (hh : H) sizeHints
    maxSizeHints idt :
  buildRootFromType d sourceType sourceValue hh sizeHints maxSizeHints idt =
  match derefValue (isPtr sourceType) sourceValue with
  | None => Panic
  | Some v =>
      typeBody d (buildRootFromType d) (derefType sourceType) v hh
               sizeHints maxSizeHints idt
  end.
Proof. destruct sourceType; reflexivity. Qed.

Lemma typeBody_generic rec t v (hh : H) sizeHints maxSizeHints idt compat :
  getFastsszHashCompatibility d t sizeHints maxSizeHints = inr compat ->
  takesGenericPath d compat t v = true ->
  typeBody d rec t v hh sizeHints maxSizeHints idt =
  genericRoot d rec t v hh maxSizeHints idt.
Proof.
  intros Hc Hg. unfold typeBody, takesGenericPath in *. rewrite Hc.
  destruct (useFastSszFor d compat (typeName t)); [|reflexivity].
  simpl in Hg. destruct (isValid v); [|discriminate].
  destruct (fastsszHashRoot d t); [discriminate|reflexivity].
Qed.

Lemma useFastSszFor_cases compat name :
  useFastSszFor d compat name =
  isHashRoot compat && negb (hasDynamicSpecSizes compat)
  && negb (hasDynamicSpecMax compat)
  && (negb (NoFastSsz d) || String.eqb name "Int").
Proof.
  unfold useFastSszFor.
  destruct (NoFastSsz d), (isHashRoot compat), (hasDynamicSpecSizes compat),
    (hasDynamicSpecMax compat), (String.eqb name "Int"); reflexivity.
Qed.

Lemma genericRoot_bitlist rec t v (hh : H) maxSizeHints idt :
  stringsContains (typeName t) "Bitlist" = true ->
  genericRoot d rec t v hh maxSizeHints idt =
  match valueBytes t v with
  | None => Panic
  | Some bytes =>
      Done (PutBitlist bytes
              match maxSizeHints with
              | hint0 :: _ => size hint0
              | [] => wrap64 (Z.of_nat (List.length bytes) * 8)
              end hh)
  end.
Proof. intros Hn. unfold genericRoot. rewrite Hn. reflexivity. Qed.

End Dispatch.

(** C3, as the code has it: the exception for the type named [Int]
    overrides the global switch [NoFastSsz] and nothing else.  When the
    verdict of the oracle is favourable (a precompiled routine, no
    overridden size, no overridden maximum), a value of a type named
    [Int] is hashed by its precompiled routine whether the switch is on
    or off. *)
Theorem C3_int_ignores_disable_switch :
  forall (H : Type) (hasher : Hasher H) (d : DynSsz)
         (t : rtype) (v v' : value) (hh : H) sizeHints maxSizeHints idt
         compat routine root,
    typeName (derefType t) = "Int"%string ->
    derefValue (isPtr t) v = Some v' ->
    isValid v' = true ->
    getFastsszHashCompatibility d (derefType t) sizeHints maxSizeHints
      = inr compat ->
    isHashRoot compat = true ->
    hasDynamicSpecSizes compat = false ->
    hasDynamicSpecMax compat = false ->
    fastsszHashRoot d (derefType t) = Some routine ->
    routine v' = inr root ->
    useFastSszFor d compat (typeName (derefType t)) = true /\
    buildRootFromType d t v hh sizeHints maxSizeHints idt
      = Done (PutBytes root hh).
Proof.
  intros H hasher d t v v' hh sh mh idt compat routine root
         Hname Hv Hvalid Hc Hroot Hsz Hmx Hr Hres.
  assert (Huse : useFastSszFor d compat (typeName (derefType t)) = true).
  { rewrite useFastSszFor_cases, Hroot, Hsz, Hmx, Hname. simpl.
    apply orb_true_r. }
  split; [exact Huse|].
  rewrite buildRootFromType_unfold, Hv. unfold typeBody.
  rewrite Hc, Huse, Hvalid, Hr, Hres. reflexivity.
Qed.

Lemma C3_int_ignores_disable_switch_witness :
  useFastSszFor (Sample.precompiled true (Sample.verdict true false false))
                (Sample.verdict true false false)
                (typeName (derefType Sample.IntT)) = true /\
  buildRootFromType (hasher := Sample.recorder)
      (Sample.precompiled true (Sample.verdict true false false))
      Sample.IntT Sample.IntV Sample.fresh [] [] 0
    = Done (PutBytes (Hasher := Sample.recorder) Sample.root Sample.fresh).
Proof.
  apply (@C3_int_ignores_disable_switch _ Sample.recorder
           (Sample.precompiled true (Sample.verdict true false false))
           Sample.IntT Sample.IntV Sample.IntV Sample.fresh [] [] 0%nat
           (Sample.verdict true false false) (fun _ => inr Sample.root)
           Sample.root); reflexivity.
Defined.

(** C3 as stated fails: with the switch on, a struct named [Int] that
    has a precompiled routine but whose verdict reports an overridden
    maximum is not hashed by the routine; the generic traversal runs. *)
Lemma C3_int_with_overridden_max :
  let d := Sample.precompiled true (Sample.verdict true false true) in
  let t := TStruct "Int" [mkStructField "Limbs" Sample.uint64sT "ssz-max:4"] in
  let v := VStruct [Sample.uint64sV] in
  typeName t = "Int"%string /\ conforms t v = true /\
  useFastSszFor d (Sample.verdict true false true) (typeName t) = false /\
  callsMade (buildRootFromType (hasher := Sample.recorder) d t v
                                Sample.fresh [] [] 0)
    = Some [CallAppendUint64 1; CallAppendUint64 2;
            CallMerkleizeWithMixin 0 2 1; CallMerkleize 0].
Proof. vm_compute. repeat split; reflexivity. Qed.

(** C4, as the code has it: a pointer type is followed to the type it
    points to and the value with it, and no nil check is made.  A call
    on a non-nil pointer is the call on the value pointed to.  A call
    on a nil pointer goes on with the zero [reflect.Value]: it returns
    the oracle's error if the oracle fails; it panics when the
    precompiled routine is chosen, and when the generic traversal
    reads the value (a type named as a bitlist, a struct with fields,
    an array, a slice, a boolean, an unsigned integer); it returns
    normally for a struct without fields; it returns [UnknownType] for
    the remaining kinds.  No dedicated nil error exists. *)
Theorem C4_pointer_followed_without_nil_check :
  forall (H : Type) (hasher : Hasher H) (d : DynSsz)
         (name : string) (e : rtype) (hh : H) sizeHints maxSizeHints idt,
    isPtr e = false ->
    (forall x,
        buildRootFromType d (TPtr name e) (VPtr (Some x)) hh
                          sizeHints maxSizeHints idt
        = buildRootFromType d e x hh sizeHints maxSizeHints idt) /\
    buildRootFromType d (TPtr name e) (VPtr None) hh
                      sizeHints maxSizeHints idt
    = match getFastsszHashCompatibility d e sizeHints maxSizeHints with
      | inl err => Fail (FailedCheckingCompat err) hh
      | inr compat =>
          if useFastSszFor d compat (typeName e) then Panic
          else if stringsContains (typeName e) "Bitlist" then Panic
          else match e with
               | TStruct _ [] => Done (Merkleize (Index hh) hh)
               | TStruct _ (_ :: _) | TArray _ _ _ | TSlice _ _
               | TPlain _ (PBool | PUint8 | PUint16 | PUint32 | PUint64) =>
                   Panic
               | _ => Fail (UnknownType e) hh
               end
      end.
Proof.
  intros H hasher d name e hh sh mh idt Hnp. split.
  - intros x. rewrite (buildRootFromType_unfold d e).
    rewrite Hnp. simpl. destruct e; try reflexivity; discriminate.
  - rewrite buildRootFromType_unfold. simpl. unfold typeBody.
    destruct (getFastsszHashCompatibility d e sh mh) as [err|compat];
      [reflexivity|].
    destruct (useFastSszFor d compat (typeName e)); [reflexivity|].
    unfold genericRoot.
    destruct (stringsContains (typeName e) "Bitlist").
    + destruct e; reflexivity.
    + destruct e as [n k|n e'|n l e'|n e'|n fs].
      * destruct k; reflexivity.
      * discriminate.
      * reflexivity.
      * reflexivity.
      * destruct fs; reflexivity.
Qed.

Lemma C4_pointer_followed_without_nil_check_witness :
  (forall x,
      buildRootFromType (hasher := Sample.recorder) (Sample.plain false)
        (TPtr "" Sample.uint64T) (VPtr (Some x)) Sample.fresh [] [] 0
      = buildRootFromType (hasher := Sample.recorder) (Sample.plain false)
          Sample.uint64T x Sample.fresh [] [] 0) /\
  buildRootFromType (hasher := Sample.recorder) (Sample.plain false)
    (TPtr "" Sample.uint64T) (VPtr None) Sample.fresh [] [] 0 = Panic.
Proof.
  exact (@C4_pointer_followed_without_nil_check _ Sample.recorder
           (Sample.plain false) "" Sample.uint64T Sample.fresh [] [] 0%nat
           eq_refl).
Defined.

(** C4 as stated fails: on a nil pointer to a struct without fields
    the call returns no error; it goes on and merkleizes. *)
Lemma C4_nil_pointer_to_empty_struct :
  conforms (TPtr "" Sample.EmptyT) (VPtr None) = true /\
  callsMade
    (buildRootFromType (hasher := Sample.recorder) (Sample.plain false)
       (TPtr "" Sample.EmptyT) (VPtr None) Sample.fresh [] [] 0)
  = Some [CallMerkleize 0].
Proof. split; reflexivity. Qed.

(** C8: on the generic path a value whose type name marks it as a
    bitlist is written by [PutBitlist] with a bound in bits that is the
    first max-size hint when there is one and 8 times the byte length
    when there is none; the call returns no error either way. *)
Theorem C8_bitlist_bound :
  forall (H : Type) (hasher : Hasher H) (d : DynSsz)
         (t : rtype) (v v' : value) (hh : H) sizeHints maxSizeHints idt
         compat bytes,
    derefValue (isPtr t) v = Some v' ->
    getFastsszHashCompatibility d (derefType t) sizeHints maxSizeHints
      = inr compat ->
    takesGenericPath d compat (derefType t) v' = true ->
    stringsContains (typeName (derefType t)) "Bitlist" = true ->
    valueBytes (derefType t) v' = Some bytes ->
    Z.of_nat (List.length bytes) * 8 < 2 ^ 64 ->
    buildRootFromType d t v hh sizeHints maxSizeHints idt
    = Done (PutBitlist bytes
              match maxSizeHints with
              | hint0 :: _ => size hint0
              | [] => 8 * Z.of_nat (List.length bytes)
              end hh).
Proof.
  intros H hasher d t v v' hh sh mh idt compat bytes
         Hv Hc Hg Hn Hb Hlen.
  rewrite buildRootFromType_unfold, Hv.
  rewrite (typeBody_generic _ _ _ _ _ _ _ _ Hc Hg).
  rewrite (genericRoot_bitlist _ _ _ _ _ _ _ Hn), Hb.
  destruct mh; [|reflexivity].
  unfold wrap64. rewrite Z.mod_small by lia.
  rewrite Z.mul_comm. reflexivity.
Qed.

Lemma C8_bitlist_bound_witness :
  buildRootFromType (hasher := Sample.recorder) (Sample.plain false)
    Sample.BitlistT Sample.BitlistV Sample.fresh [] [] 0
  = Done (PutBitlist (Hasher := Sample.recorder) [5] 8 Sample.fresh).
Proof.
  apply (@C8_bitlist_bound _ Sample.recorder (Sample.plain false)
           Sample.BitlistT Sample.BitlistV Sample.BitlistV Sample.fresh
           [] [] 0%nat (Sample.verdict false false false) [5]);
    try reflexivity.
Defined.

(** C9: on the generic path a value that is not named as a bitlist and
    whose kind, the pointer followed, has no case in the switch makes
    the call return [UnknownType] with the hasher as the call found
    it. *)
Theorem C9_unsupported_kind :
  forall (H : Type) (hasher : Hasher H) (d : DynSsz)
         (t : rtype) (v v' : value) (hh : H) sizeHints maxSizeHints idt
         compat,
    derefValue (isPtr t) v = Some v' ->
    getFastsszHashCompatibility d (derefType t) sizeHints maxSizeHints
      = inr compat ->
    takesGenericPath d compat (derefType t) v' = true ->
    stringsContains (typeName (derefType t)) "Bitlist" = false ->
    hasHashingRule (kindOf (derefType t)) = false ->
    buildRootFromType d t v hh sizeHints maxSizeHints idt
    = Fail (UnknownType (derefType t)) hh.
Proof.
  intros H hasher d t v v' hh sh mh idt compat Hv Hc Hg Hn Hk.
  rewrite buildRootFromType_unfold, Hv.
  rewrite (typeBody_generic _ _ _ _ _ _ _ _ Hc Hg).
  unfold genericRoot. rewrite Hn.
  destruct (derefType t) as [n k| | | |]; try discriminate; try reflexivity.
  destruct k; try discriminate; reflexivity.
Qed.

Lemma C9_unsupported_kind_witness :
  buildRootFromType (hasher := Sample.recorder) (Sample.plain false)
    Sample.float64T VOther Sample.fresh [] [] 0
  = Fail (UnknownType Sample.float64T) Sample.fresh.
Proof.
  apply (@C9_unsupported_kind _ Sample.recorder (Sample.plain false)
           Sample.float64T VOther VOther Sample.fresh [] [] 0%nat
           (Sample.verdict false false false)); reflexivity.
Defined.

(** C10: on the generic path the test on the type name comes before
    the switch on the kind.  Whatever the kind of a type whose name
    contains [Bitlist], the call reads the value as bytes and writes it
    by [PutBitlist]; when the value has no bytes the call panics, and in
    no case does it return an error. *)
Theorem C10_bitlist_name_precedes_kind :
  forall (H : Type) (hasher : Hasher H) (d : DynSsz)
         (t : rtype) (v v' : value) (hh : H) sizeHints maxSizeHints idt
         compat,
    derefValue (isPtr t) v = Some v' ->
    getFastsszHashCompatibility d (derefType t) sizeHints maxSizeHints
      = inr compat ->
    takesGenericPath d compat (derefType t) v' = true ->
    stringsContains (typeName (derefType t)) "Bitlist" = true ->
    let result := buildRootFromType d t v hh sizeHints maxSizeHints idt in
    result
    = match valueBytes (derefType t) v' with
      | Some bytes =>
          Done (PutBitlist bytes
                  match maxSizeHints with
                  | hint0 :: _ => size hint0
                  | [] => wrap64 (Z.of_nat (List.length bytes) * 8)
                  end hh)
      | None => Panic
      end /\
    (forall e hh', result <> Fail e hh') /\
    (result = Panic <-> valueBytes (derefType t) v' = None).
Proof.
  intros H hasher d t v v' hh sh mh idt compat Hv Hc Hg Hn result.
  assert (Hres : result
                 = match valueBytes (derefType t) v' with
                   | Some bytes =>
                       Done (PutBitlist bytes
                               match mh with
                               | hint0 :: _ => size hint0
                               | [] => wrap64 (Z.of_nat (List.length bytes) * 8)
                               end hh)
                   | None => Panic
                   end).
  { unfold result. rewrite buildRootFromType_unfold, Hv.
    rewrite (typeBody_generic _ _ _ _ _ _ _ _ Hc Hg).
    rewrite (genericRoot_bitlist _ _ _ _ _ _ _ Hn).
    destruct (valueBytes (derefType t) v'); reflexivity. }
  split; [exact Hres|]. rewrite Hres.
  destruct (valueBytes (derefType t) v'); split;
    try (intros; discriminate); split; intros; try discriminate; reflexivity.
Qed.

Lemma C10_bitlist_name_precedes_kind_witness :
  buildRootFromType (hasher := Sample.recorder) (Sample.plain false)
    (TStruct "BitlistHolder" [mkStructField "A" Sample.uint64T ""])
    (VStruct [VUint 1]) Sample.fresh [] [] 0 = Panic.
Proof.
  exact (proj2 (proj2 (proj2
           (@C10_bitlist_name_precedes_kind _ Sample.recorder
              (Sample.plain false)
              (TStruct "BitlistHolder" [mkStructField "A" Sample.uint64T ""])
              (VStruct [VUint 1]) (VStruct [VUint 1]) Sample.fresh [] [] 0%nat
              (Sample.verdict false false false)
              eq_refl eq_refl eq_refl eq_refl))) eq_refl).
Defined.

(** ** [buildRootFromSlice] *)

Section Sequences.

Context {H : Type} {hasher : Hasher H}.
Variable d : DynSsz.

Lemma buildRootFromSlice_unfold sourceType sourceValue (hh : H) maxSizeHints
    isArray idt elemType elems :
  typeElem sourceType = Some elemType ->
  valueElems sourceValue = Some elems ->
  buildRootFromSlice d sourceType sourceValue hh maxSizeHints isArray idt =
  match sliceSwitch d (buildRootFromType d) sourceType sourceValue
                    (isPtr elemType) (derefType elemType) elems hh
                    maxSizeHints isArray idt with
  | Return o => o
  | Continue hh' itemSize =>
      match maxSizeHints with
      | hint0 :: _ =>
          Done (MerkleizeWithMixin (Index hh) (Z.of_nat (List.length elems))
                  (if 0 <? itemSize
                   then calculateLimit (size hint0)
                          (Z.of_nat (List.length elems)) itemSize
                   else size hint0) hh')
      | [] => Done (Merkleize (Index hh) hh')
      end
  end.
Proof.
  intros He Hv. unfold buildRootFromSlice, sliceBody.
  destruct sourceType; try discriminate; simpl in He; inversion He; subst;
    rewrite Hv; reflexivity.
Qed.

Lemma afterLoop_Continue (o : outcome H) sz hh' sz' :
  afterLoop o sz = Continue hh' sz' -> o = Done hh' /\ sz' = sz.
Proof.
  destruct o; simpl; intros E; inversion E; subst; split; reflexivity.
Qed.

Lemma sliceSwitch_itemSize rec sourceType sourceValue fieldIsPtr fieldType
    elems (hh : H) maxSizeHints isArray idt hh' itemSize :
  sliceSwitch d rec sourceType sourceValue fieldIsPtr fieldType elems hh
              maxSizeHints isArray idt = Continue hh' itemSize ->
  itemSize = elementByteSize fieldType.
Proof.
  unfold sliceSwitch, elementByteSize.
  destruct fieldType as [n k|n e|n l e|n e|n fs]; simpl.
  - destruct k; simpl; intros E; try (inversion E; reflexivity).
    + destruct (valueBytes sourceType sourceValue); [|discriminate].
      destruct isArray; inversion E; reflexivity.
    + apply afterLoop_Continue in E. apply E.
  - intros E; inversion E; reflexivity.
  - destruct (rtype_eqb e byteType); intros E; [|discriminate].
    apply afterLoop_Continue in E. apply E.
  - destruct (rtype_eqb e byteType); intros E; [|discriminate].
    apply afterLoop_Continue in E. apply E.
  - intros E. apply afterLoop_Continue in E. apply E.
Qed.

Lemma byteSeq_loop fieldIsPtr fieldType maxSizeHints elems :
  forall i (hh : H) bss,
    elemsBytes fieldIsPtr fieldType elems = Some bss ->
    forEachFrom (byteSeqElemStep fieldIsPtr fieldType maxSizeHints) i elems hh
    = Done (fold_left (writeByteSeq maxSizeHints) bss hh).
Proof.
  induction elems as [|e rest IH]; intros i hh bss Hb; simpl in *.
  - inversion Hb. reflexivity.
  - unfold byteSeqElemStep at 1.
    destruct (derefValue fieldIsPtr e) as [fv|]; [|discriminate].
    destruct (valueBytes fieldType fv) as [b|]; [|discriminate].
    destruct (elemsBytes fieldIsPtr fieldType rest) as [bs|] eqn:Er;
      [|discriminate].
    inversion Hb; subst. simpl.
    assert (Hstep :
      match maxSizeHints with
      | _ :: hint1 :: _ =>
          Done (MerkleizeWithMixin (Index hh) (Z.of_nat (List.length b))
                  (wrap64 (size hint1 + 31) / 32) (AppendBytes32 b hh))
      | _ => Done (PutBytes b hh)
      end = Done (writeByteSeq maxSizeHints hh b)).
    { unfold writeByteSeq. destruct maxSizeHints as [|h0 [|h1 r]]; reflexivity. }
    rewrite Hstep. apply IH. reflexivity.
Qed.

End Sequences.

Lemma rtype_eqb_byteType (t : rtype) :
  rtype_eqb t byteType = true <-> t = byteType.
Proof.
  split.
  - destruct t as [n k| | | |]; simpl; try discriminate.
    intros E. apply andb_true_iff in E. destruct E as [En Ek].
    apply String.eqb_eq in En. subst n.
    destruct k; try discriminate. reflexivity.
  - intros ->. reflexivity.
Qed.

Lemma allUint_length (l : list value) (bs : list Z) :
  allUint l = Some bs -> List.length bs = List.length l.
Proof.
  revert bs. induction l as [|x r IH]; intros bs E; simpl in E.
  - inversion E. reflexivity.
  - destruct x; try discriminate.
    destruct (allUint r) as [bs'|]; [|discriminate].
    inversion E. simpl. f_equal. apply IH. reflexivity.
Qed.

Lemma conforms_uint8_allUint (n : string) (l : list value) :
  forallb (conforms (TPlain n PUint8)) l = true ->
  exists bs, allUint l = Some bs.
Proof.
  induction l as [|x r IH]; simpl; intros E.
  - exists []. reflexivity.
  - apply andb_true_iff in E. destruct E as [Ex Er].
    destruct (IH Er) as [bs Hbs]. rewrite Hbs.
    destruct x; try discriminate. eexists. reflexivity.
Qed.

Lemma ceilDiv_wrap64 (s : Z) :
  0 <= s <= 2 ^ 64 - 32 -> wrap64 (s + 31) / 32 = ceilDiv s 32.
Proof.
  intros Hs. unfold wrap64, ceilDiv. rewrite Z.mod_small by lia.
  reflexivity.
Qed.

(** C5, as the code has it: a call that gets past the switch on the
    element kind (it has neither returned for a fixed byte array nor
    failed) ends with [MerkleizeWithMixin] when there is a max-size
    hint for the outer dimension, the length operand being the element
    count and the capacity being [ceil (hint * itemSize / 32)] for
    packed elements (bytes, 1; 64-bit integers, 8) and the hint itself
    for the others; the capacity does not depend on the element count.
    Without a hint it ends with [Merkleize]. *)
Theorem C5_finalization :
  forall (H : Type) (hasher : Hasher H) (d : DynSsz)
         (sourceType : rtype) (sourceValue : value) (hh : H)
         maxSizeHints isArray idt elemType elems hh' itemSize,
    typeElem sourceType = Some elemType ->
    valueElems sourceValue = Some elems ->
    sliceSwitch d (buildRootFromType d) sourceType sourceValue
                (isPtr elemType) (derefType elemType) elems hh
                maxSizeHints isArray idt = Continue hh' itemSize ->
    itemSize = elementByteSize (derefType elemType) /\
    buildRootFromSlice d sourceType sourceValue hh maxSizeHints isArray idt
    = match maxSizeHints with
      | hint0 :: _ =>
          Done (MerkleizeWithMixin (Index hh) (Z.of_nat (List.length elems))
                  (if 0 <? itemSize
                   then ceilDiv (size hint0 * itemSize) 32
                   else size hint0) hh')
      | [] => Done (Merkleize (Index hh) hh')
      end.
Proof.
  intros H hasher d sourceType sourceValue hh mh isArray idt elemType elems
         hh' itemSize He Hv Hs.
  split; [exact (sliceSwitch_itemSize _ _ _ _ _ _ _ _ _ _ _ Hs)|].
  rewrite (buildRootFromSlice_unfold d _ _ _ _ _ _ He Hv), Hs.
  destruct mh as [|hint0 r]; [reflexivity|].
  unfold calculateLimit, ceilDiv.
  destruct (0 <? itemSize); reflexivity.
Qed.

Lemma C5_finalization_witness :
  8 = elementByteSize (derefType Sample.uint64T) /\
  buildRootFromSlice (hasher := Sample.recorder) (Sample.plain false)
    Sample.uint64sT Sample.uint64sV Sample.fresh [{| size := 4 |}] false 0
  = Done (MerkleizeWithMixin (Hasher := Sample.recorder) 0 2 1
            (AppendUint64 (Hasher := Sample.recorder) 2
               (AppendUint64 (Hasher := Sample.recorder) 1 Sample.fresh))).
Proof.
  exact (@C5_finalization _ Sample.recorder (Sample.plain false)
           Sample.uint64sT Sample.uint64sV Sample.fresh [{| size := 4 |}]
           false 0%nat Sample.uint64T [VUint 1; VUint 2]
           (AppendUint64 (Hasher := Sample.recorder) 2
              (AppendUint64 (Hasher := Sample.recorder) 1 Sample.fresh))
           8 eq_refl eq_refl eq_refl).
Defined.

(** C5 as stated fails: with a max-size hint present, the call on a
    fixed byte array makes one call on the hasher, [PutBytes], and no
    [MerkleizeWithMixin]. *)
Lemma C5_fixed_byte_array_with_hint :
  conforms Sample.bytes4T Sample.bytes4V = true /\
  callsMade
    (buildRootFromSlice (hasher := Sample.recorder) (Sample.plain false)
       Sample.bytes4T Sample.bytes4V Sample.fresh [{| size := 10 |}] true 0)
  = Some [CallPutBytes [1; 2; 3; 4]].
Proof. split; reflexivity. Qed.

(** C6: the call on a fixed-size array of [L] unsigned 8-bit elements
    hands the [L] bytes to [PutBytes] and returns, whatever the
    max-size hints; on the buffer the bytes written are the Merkle root
    of the packed, zero-padded chunks, with no mixin. *)
Theorem C6_fixed_byte_array :
  forall (d : DynSsz) (name elemName : string) (L : nat) (v : value),
    conforms (TArray name L (TPlain elemName PUint8)) v = true ->
    exists bytes : list Z,
      List.length bytes = L /\
      valueBytes (TArray name L (TPlain elemName PUint8)) v = Some bytes /\
      (forall (H : Type) (hasher : Hasher H) (hh : H) maxSizeHints idt,
          buildRootFromSlice d (TArray name L (TPlain elemName PUint8)) v hh
                             maxSizeHints true idt
          = Done (PutBytes bytes hh)) /\
      (forall hashFn (buf : list Z) maxSizeHints idt,
          buildRootFromSlice (hasher := BufferHasher hashFn) d
            (TArray name L (TPlain elemName PUint8)) v buf
            maxSizeHints true idt
          = Done (buf ++ merkleRoot hashFn 0 (pack bytes))).
Proof.
  intros d name elemName L v Hc.
  destruct v as [| | |l| | |]; try discriminate. simpl in Hc.
  apply andb_true_iff in Hc. destruct Hc as [Hlen Hall].
  apply Nat.eqb_eq in Hlen.
  destruct (conforms_uint8_allUint elemName l Hall) as [bytes Hb].
  assert (Hvb : valueBytes (TArray name L (TPlain elemName PUint8)) (VSeq l)
                = Some bytes) by (simpl; exact Hb).
  assert (Hgen : forall (H : Type) (hasher : Hasher H) (hh : H) mh idt,
             buildRootFromSlice d (TArray name L (TPlain elemName PUint8))
                                (VSeq l) hh mh true idt
             = Done (PutBytes bytes hh)).
  { intros H hasher hh mh idt.
    rewrite (@buildRootFromSlice_unfold H hasher d
               (TArray name L (TPlain elemName PUint8)) (VSeq l) hh mh true
               idt (TPlain elemName PUint8) l eq_refl eq_refl).
    unfold sliceSwitch. simpl derefType. rewrite Hvb. reflexivity. }
  exists bytes. split; [|split; [exact Hvb|split]].
  - rewrite (allUint_length _ Hb). exact Hlen.
  - exact Hgen.
  - intros hashFn buf mh idt. rewrite Hgen. reflexivity.
Qed.

Lemma C6_fixed_byte_array_witness :
  exists bytes : list Z,
    List.length bytes = 4%nat /\
    valueBytes Sample.bytes4T Sample.bytes4V = Some bytes /\
    (forall (H : Type) (hasher : Hasher H) (hh : H) maxSizeHints idt,
        buildRootFromSlice (Sample.plain false) Sample.bytes4T Sample.bytes4V
                           hh maxSizeHints true idt
        = Done (PutBytes bytes hh)) /\
    (forall hashFn (buf : list Z) maxSizeHints idt,
        buildRootFromSlice (hasher := BufferHasher hashFn)
          (Sample.plain false) Sample.bytes4T Sample.bytes4V buf
          maxSizeHints true idt
        = Done (buf ++ merkleRoot hashFn 0 (pack bytes))).
Proof.
  exact (@C6_fixed_byte_array (Sample.plain false) "" "uint8" 4
           Sample.bytes4V eq_refl).
Defined.

(** C7, as the code has it: for a sequence whose elements are arrays
    or slices, the call returns the nesting error, the hasher
    untouched, unless the innermost element type is the type [uint8]
    itself (a defined type of kind [Uint8] is refused too).  When it
    is, each outer element in turn has its bytes written by
    [AppendBytes32] and [MerkleizeWithMixin], with the byte length as
    length operand and [(hint1 + 31) / 32] in 64-bit arithmetic as
    capacity, when there is a second max-size hint, and by [PutBytes]
    when there is none; the call then ends as for any element kind of
    item size 0.  The capacity is [ceil (hint1 / 32)] for hints up to
    [2^64 - 32]. *)
Theorem C7_nested_sequences :
  forall (H : Type) (hasher : Hasher H) (d : DynSsz)
         (sourceType : rtype) (sourceValue : value) (hh : H)
         maxSizeHints isArray idt elemType itemType elems,
    typeElem sourceType = Some elemType ->
    isSequence (derefType elemType) = true ->
    typeElem (derefType elemType) = Some itemType ->
    valueElems sourceValue = Some elems ->
    let result :=
      buildRootFromSlice d sourceType sourceValue hh maxSizeHints isArray idt
    in
    (itemType <> byteType ->
     result = Fail (NonByteSliceInSlice (typeName itemType)) hh) /\
    (itemType = byteType ->
     forall bss,
       elemsBytes (isPtr elemType) (derefType elemType) elems = Some bss ->
       let hh' := fold_left (writeByteSeq maxSizeHints) bss hh in
       result
       = match maxSizeHints with
         | hint0 :: _ =>
             Done (MerkleizeWithMixin (Index hh)
                     (Z.of_nat (List.length elems)) (size hint0) hh')
         | [] => Done (Merkleize (Index hh) hh')
         end) /\
    (forall hint1,
        0 <= hint1 <= 2 ^ 64 - 32 ->
        wrap64 (hint1 + 31) / 32 = ceilDiv hint1 32).
Proof.
  intros H hasher d sourceType sourceValue hh mh isArray idt elemType
         itemType elems He Hseq Hi Hv result.
  assert (Hres := buildRootFromSlice_unfold d sourceType sourceValue hh mh
                    isArray idt He Hv).
  fold result in Hres.
  assert (Hsw :
    sliceSwitch d (buildRootFromType d) sourceType sourceValue
                (isPtr elemType) (derefType elemType) elems hh mh isArray idt
    = if rtype_eqb itemType byteType
      then afterLoop (forEachFrom
                        (byteSeqElemStep (isPtr elemType)
                                         (derefType elemType) mh)
                        0%nat elems hh) 0
      else Return (Fail (NonByteSliceInSlice (typeName itemType)) hh)).
  { unfold sliceSwitch.
    destruct (derefType elemType) as [n k|n e|n l e|n e|n fs];
      try discriminate.
    - simpl in Hi. inversion Hi. reflexivity.
    - simpl in Hi. inversion Hi. reflexivity. }
  rewrite Hsw in Hres. clear Hsw.
  split; [|split].
  - intros Hne. destruct (rtype_eqb itemType byteType) eqn:E.
    + apply rtype_eqb_byteType in E. contradiction.
    + exact Hres.
  - intros Heq bss Hb hh'. subst itemType. simpl rtype_eqb in Hres.
    rewrite (byteSeq_loop _ _ _ _ 0%nat hh Hb) in Hres. simpl in Hres.
    rewrite Hres. destruct mh; reflexivity.
  - exact ceilDiv_wrap64.
Qed.

Lemma C7_nested_sequences_witness :
  buildRootFromSlice (hasher := Sample.recorder) (Sample.plain false)
    Sample.byteSeqsT Sample.byteSeqsV Sample.fresh
    [{| size := 8 |}; {| size := 40 |}] false 0
  = Done (MerkleizeWithMixin (Hasher := Sample.recorder) 0 2 8
            (fold_left
               (writeByteSeq (hasher := Sample.recorder)
                             [{| size := 8 |}; {| size := 40 |}])
               [[1; 2]; [3]] Sample.fresh)).
Proof.
  exact (proj1 (proj2
           (@C7_nested_sequences _ Sample.recorder (Sample.plain false)
              Sample.byteSeqsT Sample.byteSeqsV Sample.fresh
              [{| size := 8 |}; {| size := 40 |}] false 0%nat
              (TSlice "" Sample.uint8T) Sample.uint8T
              [VSeq [VUint 1; VUint 2]; VSeq [VUint 3]]
              eq_refl eq_refl eq_refl eq_refl))
           eq_refl [[1; 2]; [3]] eq_refl).
Defined.

(** C7 as stated fails: the innermost element kind of [[][]MyByte],
    with [type MyByte uint8], is the unsigned 8-bit kind, and the call
    returns the nesting error. *)
Lemma C7_defined_byte_type_refused :
  kindOf Sample.MyByteT = reflect.Uint8 /\
  conforms Sample.myBytesT Sample.myBytesV = true /\
  buildRootFromSlice (hasher := Sample.recorder) (Sample.plain false)
    Sample.myBytesT Sample.myBytesV Sample.fresh [] false 0
  = Fail (NonByteSliceInSlice "MyByte") Sample.fresh.
Proof. repeat split; reflexivity. Qed.

(** ** The buffer *)

Section BufferFacts.

Variable hashFn : list Z -> list Z.

Lemma chunk32_length (l : list Z) : List.length (chunk32 l) = 32%nat.
Proof.
  unfold chunk32, zeroBytes.
  rewrite length_firstn, length_app, repeat_length. lia.
Qed.

Lemma hashPair_length (a b : list Z) :
  List.length (hashPair hashFn a b) = 32%nat.
Proof. apply chunk32_length. Qed.

Lemma zeroHash_length (depth : nat) :
  List.length (zeroHash hashFn depth) = 32%nat.
Proof.
  destruct depth; simpl.
  - reflexivity.
  - apply hashPair_length.
Qed.

Lemma chunksOf_allChunks (fuel : nat) :
  forall l, allChunks (chunksOf fuel l).
Proof.
  induction fuel as [|k IH]; intros l; simpl.
  - constructor.
  - destruct l; constructor.
    + apply chunk32_length.
    + apply IH.
Qed.

Lemma hashLayer_allChunks (zero : list Z) (cs : list (list Z)) :
  allChunks (hashLayer hashFn zero cs).
Proof.
  assert (Hboth : allChunks (hashLayer hashFn zero cs) /\
                  forall c, allChunks (hashLayer hashFn zero (c :: cs))).
  { induction cs as [|a rest IH].
    - split; [constructor|]. intros c. simpl.
      constructor; [apply hashPair_length|constructor].
    - destruct IH as [IH1 IH2]. split; [apply IH2|].
      intros c. simpl. constructor; [apply hashPair_length|exact IH1]. }
  apply Hboth.
Qed.

Lemma merkleLevels_length (depth : nat) :
  forall level cs,
    allChunks cs ->
    List.length (merkleLevels hashFn depth level cs) = 32%nat.
Proof.
  induction depth as [|k IH]; intros level cs Hcs.
  - destruct cs as [|c r]; simpl.
    + apply zeroHash_length.
    + inversion Hcs; assumption.
  - destruct cs as [|c r].
    + simpl. apply zeroHash_length.
    + change (merkleLevels hashFn (S k) level (c :: r))
        with (merkleLevels hashFn k (S level)
                (hashLayer hashFn (zeroHash hashFn level) (c :: r))).
      apply IH. apply hashLayer_allChunks.
Qed.

Lemma merkleRoot_length (limit : Z) (l : list Z) :
  List.length (merkleRoot hashFn limit (pack l)) = 32%nat.
Proof.
  unfold merkleRoot. apply merkleLevels_length.
  unfold pack. apply chunksOf_allChunks.
Qed.

Lemma extends_refl (buf : list Z) : extends buf buf.
Proof. exists []. symmetry. apply app_nil_r. Qed.

Lemma extends_trans (a b c : list Z) :
  extends a b -> extends b c -> extends a c.
Proof.
  intros [s ->] [s' ->]. exists (s ++ s'). symmetry. apply app_assoc.
Qed.

Lemma extends_app (buf more : list Z) : extends buf (buf ++ more).
Proof. exists more. reflexivity. Qed.

Lemma appendsOneChunk_extends (a b : list Z) :
  appendsOneChunk a b -> extends a b.
Proof. intros [root [_ ->]]. apply extends_app. Qed.

Lemma firstn_extends (before after : list Z) :
  extends before after -> firstn (List.length before) after = before.
Proof.
  intros [s ->]. rewrite firstn_app, Nat.sub_diag, firstn_all. simpl.
  apply app_nil_r.
Qed.

Lemma bufMerkleize_chunk (before after : list Z) :
  extends before after ->
  appendsOneChunk before
    (bufMerkleize hashFn (List.length before) after).
Proof.
  intros He. unfold bufMerkleize. rewrite (firstn_extends He).
  eexists. split; [|reflexivity]. apply merkleRoot_length.
Qed.

Lemma bufMerkleizeWithMixin_chunk (before after : list Z) (num limit : Z) :
  extends before after ->
  appendsOneChunk before
    (bufMerkleizeWithMixin hashFn (List.length before) num limit after).
Proof.
  intros He. unfold bufMerkleizeWithMixin. rewrite (firstn_extends He).
  eexists. split; [|reflexivity]. apply hashPair_length.
Qed.

Lemma bufPutBytes_chunk (b buf : list Z) :
  appendsOneChunk buf (bufPutBytes hashFn b buf).
Proof.
  unfold bufPutBytes. eexists. split; [|reflexivity].
  apply merkleRoot_length.
Qed.

Lemma bufPutBitlist_chunk (bb : list Z) (maxSize : Z) (buf : list Z) :
  appendsOneChunk buf (bufPutBitlist hashFn bb maxSize buf).
Proof.
  unfold bufPutBitlist. apply bufMerkleizeWithMixin_chunk.
  unfold bufAppendBytes32. apply extends_app.
Qed.

Lemma bufPutScalar_chunk (width : nat) (v : Z) (buf : list Z) :
  appendsOneChunk buf (bufPutScalar width v buf).
Proof.
  unfold bufPutScalar. eexists. split; [|reflexivity]. apply chunk32_length.
Qed.

End BufferFacts.

(** ** Sizes of type descriptors *)

Lemma tsize_derefType (t : rtype) : (tsize (derefType t) <= tsize t)%nat.
Proof. destruct t; simpl; lia. Qed.

Lemma tsize_field (n : string) (fs : list StructField) (f : StructField) :
  In f fs -> (tsize (Field_Type f) < tsize (TStruct n fs))%nat.
Proof.
  simpl. induction fs as [|g r IH]; intros Hin; [contradiction|].
  destruct Hin as [->|Hin].
  - lia.
  - specialize (IH Hin). lia.
Qed.

Lemma recOk_le rec (small large : nat) :
  (small <= large)%nat -> recOk rec large -> recOk rec small.
Proof. intros Hle Hok t Ht. apply Hok. lia. Qed.

(** ** One chunk per call *)

Section OneChunk.

Variable hashFn : list Z -> list Z.
Variable d : DynSsz.

Lemma forEachFrom_extends (A : Type)
    (body : nat -> A -> list Z -> outcome (list Z)) (items : list A) :
  (forall i x buf buf',
      In x items -> body i x buf = Done buf' -> extends buf buf') ->
  forall i buf buf',
    forEachFrom body i items buf = Done buf' -> extends buf buf'.
Proof.
  induction items as [|x rest IH]; intros Hbody i buf buf' Hrun;
    simpl in Hrun.
  - inversion Hrun. apply extends_refl.
  - destruct (body i x buf) as [mid| |] eqn:Hstep; try discriminate.
    apply extends_trans with mid.
    + apply (Hbody i x); [left; reflexivity|exact Hstep].
    + apply (IH (fun j y b b' Hy => Hbody j y b b' (or_intror Hy))
                (S i) mid buf' Hrun).
  Qed.

Variable rec :
  rtype -> value -> list Z -> list sszSizeHint -> list sszMaxSizeHint ->
  nat -> outcome (list Z).

Lemma structBody_chunk (t : rtype) (v : value) (buf : list Z) (idt : nat) :
  recOk rec (tsize (derefType t)) ->
  returnsOneChunk buf (structBody (hasher := BufferHasher hashFn) d rec t v buf idt).
Proof.
  intros Hrec after Hrun. unfold structBody in Hrun.
  destruct (derefValue (isPtr t) v) as [v'|]; [|discriminate].
  destruct (derefType t) as [| | | |n fs] eqn:Ht; try discriminate.
  destruct (forEachFrom (structFieldStep d rec v' idt) 0 fs buf)
    as [mid| |] eqn:Hloop; try discriminate.
  simpl in Hrun. inversion Hrun. subst after.
  apply (bufMerkleize_chunk hashFn).
  eapply forEachFrom_extends; [|exact Hloop].
  intros i f b b' Hin Hstep. unfold structFieldStep in Hstep.
  destruct (valueField v' i) as [fv|]; [|discriminate].
  destruct (derefValue (isPtr (Field_Type f)) fv) as [fv'|]; [|discriminate].
  destruct (getSszFieldSize d f) as [|sh]; [discriminate|].
  destruct (getSszMaxSizeTag d f) as [|mh]; [discriminate|].
  apply appendsOneChunk_extends.
  apply (Hrec (derefType (Field_Type f))) in Hstep; [exact Hstep|].
  pose proof (tsize_field n fs f Hin).
  pose proof (tsize_derefType (Field_Type f)). lia.
Qed.

Lemma afterLoop_Return (o o' : outcome (list Z)) sz buf :
  afterLoop o sz = Return o' -> returnsOneChunk buf o'.
Proof.
  destruct o; simpl; intros E; inversion E; subst; intros after Hd;
    discriminate.
Qed.

Lemma sliceSwitch_chunk (sourceType : rtype) (sourceValue : value)
    (fieldIsPtr : bool) (fieldType : rtype) (elems : list value)
    (buf : list Z) maxSizeHints isArray idt :
  recOk rec (tsize fieldType) ->
  match sliceSwitch (hasher := BufferHasher hashFn) d rec sourceType sourceValue fieldIsPtr fieldType elems
                    buf maxSizeHints isArray idt with
  | Return o => returnsOneChunk buf o
  | Continue buf' _ => extends buf buf'
  end.
Proof.
  intros Hrec.
  assert (Hloop : forall body sz,
    (forall i x b b', body i x b = Done b' -> extends b b') ->
    match afterLoop (forEachFrom body 0 elems buf) sz with
    | Return o => returnsOneChunk buf o
    | Continue buf' _ => extends buf buf'
    end).
  { intros body sz Hbody.
    destruct (afterLoop (forEachFrom body 0 elems buf) sz) as [o|buf' sz']
      eqn:E.
    - eapply afterLoop_Return. exact E.
    - apply afterLoop_Continue in E. destruct E as [E _].
      eapply forEachFrom_extends; [|exact E].
      intros i x b b' _ Hs. exact (Hbody i x b b' Hs). }
  assert (Hbytes : forall i x b b',
    byteSeqElemStep (hasher := BufferHasher hashFn) fieldIsPtr fieldType maxSizeHints i x b = Done b' ->
    extends b b').
  { intros i x b b' Hs. unfold byteSeqElemStep in Hs.
    destruct (derefValue fieldIsPtr x) as [fv|]; [|discriminate].
    destruct (valueBytes fieldType fv) as [bs|]; [|discriminate].
    apply appendsOneChunk_extends.
    destruct maxSizeHints as [|h0 [|h1 r]]; inversion Hs;
      try apply (bufPutBytes_chunk hashFn).
    apply (bufMerkleizeWithMixin_chunk hashFn). apply extends_app. }
  unfold sliceSwitch.
  destruct fieldType as [n k|n e|n l e|n e|n fs].
  - destruct k; try apply extends_refl.
    + destruct (valueBytes sourceType sourceValue) as [bytes|].
      * destruct isArray.
        -- intros after Hd. inversion Hd.
           apply (bufPutBytes_chunk hashFn).
        -- simpl. unfold bufFillUpTo32. rewrite <- app_assoc.
           apply extends_app.
      * intros after Hd. discriminate.
    + apply Hloop. intros i x b b' Hs. unfold uint64ElemStep in Hs.
      destruct (derefValue fieldIsPtr x) as [fv|]; [|discriminate].
      destruct (valueUint fv); [|discriminate].
      inversion Hs. apply extends_app.
  - apply extends_refl.
  - destruct (rtype_eqb e byteType).
    + apply Hloop. exact Hbytes.
    + intros after Hd. discriminate.
  - destruct (rtype_eqb e byteType).
    + apply Hloop. exact Hbytes.
    + intros after Hd. discriminate.
  - apply Hloop. intros i x b b' Hs. unfold structElemStep in Hs.
    destruct (derefValue fieldIsPtr x) as [fv|]; [|discriminate].
    apply appendsOneChunk_extends.
    apply (structBody_chunk (TStruct n fs) fv b (idt + 2)); [|exact Hs].
    exact Hrec.
Qed.

Lemma sliceBody_chunk (t : rtype) (v : value) (buf : list Z)
    maxSizeHints isArray idt :
  recOk rec (tsize t) ->
  returnsOneChunk buf (sliceBody (hasher := BufferHasher hashFn) d rec t v buf maxSizeHints isArray idt).
Proof.
  intros Hrec after Hrun. unfold sliceBody in Hrun.
  assert (Hgo : forall elemType,
    (tsize elemType < tsize t)%nat ->
    match valueElems v with
    | Some elems =>
        match sliceSwitch (hasher := BufferHasher hashFn) d rec t v (isPtr elemType) (derefType elemType)
                          elems buf maxSizeHints isArray idt with
        | Return o => o
        | Continue hh itemSize =>
            match maxSizeHints with
            | [] => Done (Merkleize (Hasher := BufferHasher hashFn) (Index (Hasher := BufferHasher hashFn) buf) hh)
            | hint0 :: _ =>
                Done (MerkleizeWithMixin (Hasher := BufferHasher hashFn)
                        (Index (Hasher := BufferHasher hashFn) buf)
                        (Z.of_nat (List.length elems))
                        (if 0 <? itemSize
                         then calculateLimit (size hint0)
                                (Z.of_nat (List.length elems)) itemSize
                         else size hint0) hh)
            end
        end
    | None => Panic
    end = Done after -> appendsOneChunk buf after).
  { intros elemType Hlt Hd.
    destruct (valueElems v) as [elems|]; [|discriminate].
    assert (Hrec' : recOk rec (tsize (derefType elemType))).
    { apply (recOk_le (large := tsize t)); [|exact Hrec].
      pose proof (tsize_derefType elemType). lia. }
    pose proof (sliceSwitch_chunk t v (isPtr elemType) (derefType elemType)
                  elems buf maxSizeHints isArray idt Hrec') as Hsw.
    destruct (sliceSwitch (hasher := BufferHasher hashFn) d rec t v (isPtr elemType) (derefType elemType)
                          elems buf maxSizeHints isArray idt) as [o|hh sz].
    - apply Hsw. exact Hd.
    - destruct maxSizeHints as [|hint0 r]; inversion Hd.
      + apply (bufMerkleize_chunk hashFn). exact Hsw.
      + apply (bufMerkleizeWithMixin_chunk hashFn). exact Hsw. }
  destruct t as [n k|n e|n l e|n e|n fs]; try discriminate;
    apply (Hgo e); simpl; try lia; exact Hrun.
Qed.

Lemma genericRoot_chunk (t : rtype) (v : value) (buf : list Z)
    maxSizeHints idt :
  recOk rec (tsize t) ->
  returnsOneChunk buf (genericRoot (hasher := BufferHasher hashFn) d rec t v buf maxSizeHints idt).
Proof.
  intros Hrec after Hrun. unfold genericRoot in Hrun.
  destruct (stringsContains (typeName t) "Bitlist").
  - destruct (valueBytes t v); inversion Hrun.
    apply (bufPutBitlist_chunk hashFn).
  - destruct t as [n k|n e|n l e|n e|n fs].
    + destruct k; try discriminate;
        try (destruct (valueBool v); inversion Hrun;
             apply bufPutScalar_chunk);
        destruct (valueUint v); inversion Hrun; apply bufPutScalar_chunk.
    + discriminate.
    + eapply sliceBody_chunk; [exact Hrec|exact Hrun].
    + eapply sliceBody_chunk; [exact Hrec|exact Hrun].
    + apply (structBody_chunk (TStruct n fs) v buf idt); [|exact Hrun].
      exact (recOk_le (Nat.le_refl _) Hrec).
Qed.

Lemma typeBody_chunk (t : rtype) (v : value) (buf : list Z)
    sizeHints maxSizeHints idt :
  recOk rec (tsize t) ->
  returnsOneChunk buf (typeBody (hasher := BufferHasher hashFn) d rec t v buf sizeHints maxSizeHints idt).
Proof.
  intros Hrec after Hrun. unfold typeBody in Hrun.
  destruct (getFastsszHashCompatibility d t sizeHints maxSizeHints)
    as [|compat]; [discriminate|].
  destruct (useFastSszFor d compat (typeName t)).
  - destruct (isValid v); [|discriminate].
    destruct (fastsszHashRoot d t) as [routine|].
    + destruct (routine v); inversion Hrun.
      apply (bufPutBytes_chunk hashFn).
    + eapply genericRoot_chunk; [exact Hrec|exact Hrun].
  - eapply genericRoot_chunk; [exact Hrec|exact Hrun].
Qed.

End OneChunk.

Lemma buildRootFromType_chunk hashFn (d : DynSsz) (bound : nat) :
  recOk (buildRootFromType (hasher := BufferHasher hashFn) d) bound.
Proof.
  induction bound as [|n IH]; intros t Ht; [lia|].
  intros v buf sh mh idt after Hrun.
  rewrite buildRootFromType_unfold in Hrun.
  destruct (derefValue (isPtr t) v) as [v'|]; [|discriminate].
  eapply typeBody_chunk; [|exact Hrun].
  apply (recOk_le (large := n)); [|exact IH].
  pose proof (tsize_derefType t). lia.
Qed.

(** C2: on the buffer, a call of [buildRootFromType], of
    [buildRootFromStruct] or of [buildRootFromSlice] that returns
    without error leaves the buffer it found followed by exactly one
    32-byte chunk. *)
Theorem C2_one_chunk_per_call :
  forall hashFn (d : DynSsz),
    (forall t v buf sizeHints maxSizeHints idt after,
        buildRootFromType (hasher := BufferHasher hashFn) d t v buf
                          sizeHints maxSizeHints idt = Done after ->
        appendsOneChunk buf after) /\
    (forall t v buf idt after,
        buildRootFromStruct (hasher := BufferHasher hashFn) d t v buf idt
        = Done after ->
        appendsOneChunk buf after) /\
    (forall t v buf maxSizeHints isArray idt after,
        buildRootFromSlice (hasher := BufferHasher hashFn) d t v buf
                           maxSizeHints isArray idt = Done after ->
        appendsOneChunk buf after).
Proof.
  intros hashFn d. split; [|split].
  - intros t v buf sh mh idt after Hrun.
    exact (@buildRootFromType_chunk hashFn d (S (tsize t)) t
             (Nat.lt_succ_diag_r _) v buf sh mh idt after Hrun).
  - intros t v buf idt after Hrun.
    eapply structBody_chunk; [|exact Hrun].
    apply buildRootFromType_chunk.
  - intros t v buf mh isArray idt after Hrun.
    eapply sliceBody_chunk; [|exact Hrun].
    apply buildRootFromType_chunk.
Qed.

Lemma C2_one_chunk_per_call_witness :
  (exists after,
      buildRootFromType (hasher := Sample.buffer) (Sample.plain false)
        Sample.pairT Sample.pairV [] [] [] 0 = Done after /\
      appendsOneChunk [] after) /\
  (exists after,
      buildRootFromStruct (hasher := Sample.buffer) (Sample.plain false)
        Sample.pairT Sample.pairV [] 0 = Done after /\
      appendsOneChunk [] after) /\
  (exists after,
      buildRootFromSlice (hasher := Sample.buffer) (Sample.plain false)
        Sample.uint64sT Sample.uint64sV [] [{| size := 4 |}] false 0
      = Done after /\
      appendsOneChunk [] after).
Proof.
  split; [|split]; eexists; (split; [vm_compute; reflexivity|]).
  - apply (proj1 (C2_one_chunk_per_call Sample.hashFn (Sample.plain false))
             Sample.pairT Sample.pairV [] [] [] 0%nat).
    vm_compute; reflexivity.
  - apply (proj1 (proj2 (C2_one_chunk_per_call Sample.hashFn
                           (Sample.plain false)))
             Sample.pairT Sample.pairV [] 0%nat).
    vm_compute; reflexivity.
  - apply (proj2 (proj2 (C2_one_chunk_per_call Sample.hashFn
                           (Sample.plain false)))
             Sample.uint64sT Sample.uint64sV [] [{| size := 4 |}] false
             0%nat).
    vm_compute; reflexivity.
Defined.

(** * Further properties of the three functions *)

(** ** Loops *)

Section LoopFacts.

Context {H : Type} {A : Type}.

Lemma forEachFrom_ext (body1 body2 : nat -> A -> H -> outcome H)
    (items : list A) :
  (forall i x hh, In x items -> body1 i x hh = body2 i x hh) ->
  forall i hh, forEachFrom body1 i items hh = forEachFrom body2 i items hh.
Proof.
  induction items as [|x rest IH]; intros Hsame i hh; simpl; [reflexivity|].
  rewrite (Hsame i x hh (or_introl eq_refl)).
  destruct (body2 i x hh); try reflexivity.
  apply IH. intros j y h Hy. apply Hsame. right. exact Hy.
Qed.

Lemma forEachFrom_app (body : nat -> A -> H -> outcome H)
    (first rest : list A) :
  forall i hh,
    forEachFrom body i (first ++ rest) hh
    = forEachFrom body i first hh
      >>= forEachFrom body (i + List.length first) rest.
Proof.
  induction first as [|x l IH]; intros i hh; simpl.
  - rewrite Nat.add_0_r. reflexivity.
  - destruct (body i x hh); try reflexivity.
    rewrite IH. simpl. rewrite Nat.add_succ_r. reflexivity.
Qed.

Lemma forEachFrom_map {B : Type} (g : B -> A)
    (body : nat -> A -> H -> outcome H) (items : list B) :
  forall i hh,
    forEachFrom body i (map g items) hh
    = forEachFrom (fun j y => body j (g y)) i items hh.
Proof.
  induction items as [|y rest IH]; intros i hh; simpl; [reflexivity|].
  destruct (body i (g y) hh); try reflexivity. apply IH.
Qed.

End LoopFacts.

(** ** Two runs that agree *)

Section Agreement.

Context {H : Type} {hasher : Hasher H}.
Variables d1 d2 : DynSsz.
Variable P : rtype -> Prop.

Hypothesis P_elem : forall t e, typeElem t = Some e -> P t -> P e.
Hypothesis P_field :
  forall n fs f, In f fs -> P (TStruct n fs) -> P (Field_Type f).
Hypothesis same_size : forall f, getSszFieldSize d1 f = getSszFieldSize d2 f.
Hypothesis same_max : forall f, getSszMaxSizeTag d1 f = getSszMaxSizeTag d2 f.
Hypothesis same_oracle :
  forall t, P t -> forall sh mh,
    getFastsszHashCompatibility d1 t sh mh
    = getFastsszHashCompatibility d2 t sh mh.
Hypothesis same_choice :
  forall t, P t -> forall compat,
    useFastSszFor d1 compat (typeName t)
    = useFastSszFor d2 compat (typeName t).
Hypothesis same_routine :
  forall t, P t -> forall compat,
    useFastSszFor d1 compat (typeName t) = true ->
    fastsszHashRoot d1 t = fastsszHashRoot d2 t.

Lemma P_derefType (t : rtype) : P t -> P (derefType t).
Proof.
  destruct t; simpl; try (intros Hp; exact Hp).
  intros Hp. eapply P_elem; [|exact Hp]. reflexivity.
Qed.

Section Step.

Variables rec1 rec2 :
  rtype -> value -> H -> list sszSizeHint -> list sszMaxSizeHint -> nat ->
  outcome H.

Lemma recAgree_le (small large : nat) :
  (small <= large)%nat ->
  recAgree P rec1 rec2 large -> recAgree P rec1 rec2 small.
Proof. intros Hle Hok t Ht. apply Hok. lia. Qed.

Lemma fieldsSatisfy_of (t : rtype) : P t -> fieldsSatisfy P t.
Proof.
  intros Hp n fs f Ht Hin. apply P_derefType.
  eapply P_field; [exact Hin|]. rewrite <- Ht. apply P_derefType. exact Hp.
Qed.

Lemma structBody_agree (t : rtype) (v : value) (hh : H) (idt1 idt2 : nat) :
  fieldsSatisfy P t ->
  recAgree P rec1 rec2 (tsize (derefType t)) ->
  structBody d1 rec1 t v hh idt1 = structBody d2 rec2 t v hh idt2.
Proof.
  intros Hp Hrec. unfold structBody.
  destruct (derefValue (isPtr t) v) as [v'|]; [|reflexivity].
  unfold fieldsSatisfy in Hp.
  destruct (derefType t) as [| | | |n fs]; try reflexivity.
  rewrite (forEachFrom_ext (structFieldStep d1 rec1 v' idt1)
             (structFieldStep d2 rec2 v' idt2)); [reflexivity|].
  intros i f h Hin. unfold structFieldStep.
  destruct (valueField v' i) as [fv|]; [|reflexivity].
  destruct (derefValue (isPtr (Field_Type f)) fv) as [fv'|]; [|reflexivity].
  rewrite same_size, same_max.
  destruct (getSszFieldSize d2 f) as [|sh]; [reflexivity|].
  destruct (getSszMaxSizeTag d2 f) as [|mh]; [reflexivity|].
  apply Hrec.
  - pose proof (tsize_field n fs f Hin).
    pose proof (tsize_derefType (Field_Type f)). lia.
  - exact (Hp n fs f eq_refl Hin).
Qed.

Lemma sliceSwitch_agree (sourceType : rtype) (sourceValue : value)
    (fieldIsPtr : bool) (fieldType : rtype) (elems : list value) (hh : H)
    maxSizeHints isArray (idt1 idt2 : nat) :
  fieldsSatisfy P fieldType ->
  recAgree P rec1 rec2 (tsize fieldType) ->
  sliceSwitch d1 rec1 sourceType sourceValue fieldIsPtr fieldType elems hh
              maxSizeHints isArray idt1
  = sliceSwitch d2 rec2 sourceType sourceValue fieldIsPtr fieldType elems hh
                maxSizeHints isArray idt2.
Proof.
  intros Hp Hrec. unfold sliceSwitch.
  destruct fieldType as [n k|n e|n l e|n e|n fs]; try reflexivity.
  f_equal. apply forEachFrom_ext. intros i x h _. unfold structElemStep.
  destruct (derefValue fieldIsPtr x) as [fv|]; [|reflexivity].
  apply structBody_agree; [exact Hp|exact Hrec].
Qed.


Lemma sliceBody_agree (t : rtype) (v : value) (hh : H) maxSizeHints isArray
    (idt1 idt2 : nat) :
  elementFieldsSatisfy P t ->
  recAgree P rec1 rec2 (tsize t) ->
  sliceBody d1 rec1 t v hh maxSizeHints isArray idt1
  = sliceBody d2 rec2 t v hh maxSizeHints isArray idt2.
Proof.
  intros Hp Hrec. unfold sliceBody.
  assert (Hsw : forall e, typeElem t = Some e -> forall elems,
    sliceSwitch d1 rec1 t v (isPtr e) (derefType e) elems hh maxSizeHints
                isArray idt1
    = sliceSwitch d2 rec2 t v (isPtr e) (derefType e) elems hh maxSizeHints
                  isArray idt2).
  { intros e He elems. apply sliceSwitch_agree.
    - exact (Hp e He).
    - apply (recAgree_le (large := tsize t)); [|exact Hrec].
      pose proof (tsize_derefType e).
      destruct t; try discriminate; simpl in He; inversion He; subst;
        simpl; lia. }
  destruct t as [n k|n e|n l e|n e|n fs]; try reflexivity;
    (destruct (valueElems v) as [elems|]; [|reflexivity]);
    rewrite (Hsw e eq_refl elems); reflexivity.
Qed.

Lemma genericRoot_agree (t : rtype) (v : value) (hh : H) maxSizeHints
    (idt1 idt2 : nat) :
  P t ->
  recAgree P rec1 rec2 (tsize t) ->
  genericRoot d1 rec1 t v hh maxSizeHints idt1
  = genericRoot d2 rec2 t v hh maxSizeHints idt2.
Proof.
  intros Hp Hrec. unfold genericRoot.
  destruct (stringsContains (typeName t) "Bitlist"); [reflexivity|].
  destruct t as [n k|n e|n l e|n e|n fs]; try reflexivity.
  - apply sliceBody_agree; [|exact Hrec].
    intros e' He. apply fieldsSatisfy_of. apply P_derefType.
    eapply P_elem; [exact He|exact Hp].
  - apply sliceBody_agree; [|exact Hrec].
    intros e' He. apply fieldsSatisfy_of. apply P_derefType.
    eapply P_elem; [exact He|exact Hp].
  - apply structBody_agree; [exact (fieldsSatisfy_of Hp)|].
    exact (recAgree_le (Nat.le_refl _) Hrec).
Qed.

Lemma typeBody_agree (t : rtype) (v : value) (hh : H) sizeHints maxSizeHints
    (idt1 idt2 : nat) :
  P t ->
  recAgree P rec1 rec2 (tsize t) ->
  typeBody d1 rec1 t v hh sizeHints maxSizeHints idt1
  = typeBody d2 rec2 t v hh sizeHints maxSizeHints idt2.
Proof.
  intros Hp Hrec. unfold typeBody.
  rewrite (same_oracle Hp sizeHints maxSizeHints).
  destruct (getFastsszHashCompatibility d2 t sizeHints maxSizeHints)
    as [|compat]; [reflexivity|].
  pose proof (same_routine Hp compat) as Hr.
  rewrite <- (same_choice Hp).
  destruct (useFastSszFor d1 compat (typeName t)).
  - rewrite <- (Hr eq_refl).
    destruct (isValid v); [|reflexivity].
    destruct (fastsszHashRoot d1 t); [reflexivity|].
    apply genericRoot_agree; assumption.
  - apply genericRoot_agree; assumption.
Qed.

End Step.

Lemma buildRootFromType_agree (bound : nat) :
  recAgree P (buildRootFromType d1) (buildRootFromType d2) bound.
Proof.
  induction bound as [|n IH]; intros t Ht Hp; [lia|].
  intros v hh sh mh idt1 idt2.
  rewrite !buildRootFromType_unfold.
  destruct (derefValue (isPtr t) v) as [v'|]; [|reflexivity].
  apply typeBody_agree; [exact (P_derefType Hp)|].
  apply (recAgree_le (large := n)); [|exact IH].
  pose proof (tsize_derefType t). lia.
Qed.

End Agreement.

(** X1: the nesting depth [idt] serves the diagnostic output only;
    no result of the three functions depends on it. *)
Theorem X1_nesting_depth_is_diagnostic :
  forall (H : Type) (hasher : Hasher H) (d : DynSsz),
    (forall t v (hh : H) sizeHints maxSizeHints idt idt',
        buildRootFromType d t v hh sizeHints maxSizeHints idt
        = buildRootFromType d t v hh sizeHints maxSizeHints idt') /\
    (forall t v (hh : H) idt idt',
        buildRootFromStruct d t v hh idt = buildRootFromStruct d t v hh idt') /\
    (forall t v (hh : H) maxSizeHints isArray idt idt',
        buildRootFromSlice d t v hh maxSizeHints isArray idt
        = buildRootFromSlice d t v hh maxSizeHints isArray idt').
Proof.
  intros H hasher d.
  assert (Hall : forall bound,
             recAgree (fun _ => True) (buildRootFromType d)
                      (buildRootFromType d) bound).
  { intros bound.
    apply (buildRootFromType_agree d d (fun _ => True)); auto. }
  split; [|split].
  - intros t v hh sh mh idt idt'.
    apply (Hall (S (tsize t)) t (Nat.lt_succ_diag_r _) I).
  - intros t v hh idt idt'. unfold buildRootFromStruct.
    apply (structBody_agree d d (P := fun _ => True)); auto.
    intros n fs f _ _. exact I.
  - intros t v hh mh isArray idt idt'. unfold buildRootFromSlice.
    apply (sliceBody_agree d d (P := fun _ => True)); auto.
    intros e _ n fs f _ _. exact I.
Qed.

Lemma namesInt_elem (t e : rtype) :
  typeElem t = Some e -> namesInt t = false -> namesInt e = false.
Proof.
  destruct t; simpl; try discriminate; intros He Hn; inversion He; subst;
    apply orb_false_iff in Hn; apply Hn.
Qed.

Lemma namesInt_field (n : string) (fs : list StructField) (f : StructField) :
  In f fs -> namesInt (TStruct n fs) = false ->
  namesInt (Field_Type f) = false.
Proof.
  intros Hin Hn. simpl in Hn. apply orb_false_iff in Hn.
  destruct Hn as [_ Hn].
  destruct (namesInt (Field_Type f)) eqn:E; [|reflexivity].
  assert (Hex : existsb (fun g => namesInt (Field_Type g)) fs = true).
  { apply existsb_exists. exists f. split; assumption. }
  rewrite Hex in Hn. discriminate.
Qed.

Lemma namesInt_name (t : rtype) :
  namesInt t = false -> String.eqb (typeName t) "Int" = false.
Proof.
  destruct t; simpl; intros Hn; apply orb_false_iff in Hn; apply Hn.
Qed.

(** X5: with the switch [NoFastSsz] on, the precompiled routines have
    no part in the result for a type in which no type is named [Int]:
    two configurations that differ in the routines alone give the same
    result. *)
Theorem X5_disable_switch_bypasses_routines :
  forall (H : Type) (hasher : Hasher H) (d1 d2 : DynSsz),
    NoFastSsz d1 = true ->
    NoFastSsz d2 = true ->
    (forall t sh mh,
        getFastsszHashCompatibility d1 t sh mh
        = getFastsszHashCompatibility d2 t sh mh) ->
    (forall f, getSszFieldSize d1 f = getSszFieldSize d2 f) ->
    (forall f, getSszMaxSizeTag d1 f = getSszMaxSizeTag d2 f) ->
    forall t, namesInt t = false ->
    forall v (hh : H) sizeHints maxSizeHints idt,
      buildRootFromType d1 t v hh sizeHints maxSizeHints idt
      = buildRootFromType d2 t v hh sizeHints maxSizeHints idt.
Proof.
  intros H hasher d1 d2 Hoff1 Hoff2 Horacle Hsize Hmax t Hn v hh sh mh idt.
  apply (buildRootFromType_agree d1 d2 (fun t => namesInt t = false)
           namesInt_elem namesInt_field Hsize Hmax)
    with (bound := S (tsize t)); auto.
  - intros t' Hn' compat. rewrite !useFastSszFor_cases, Hoff1, Hoff2.
    reflexivity.
  - intros t' Hn' compat Huse. rewrite useFastSszFor_cases in Huse.
    rewrite Hoff1, (namesInt_name _ Hn') in Huse. simpl in Huse.
    rewrite andb_false_r in Huse. discriminate.
Qed.

Lemma X5_disable_switch_bypasses_routines_witness :
  buildRootFromType (hasher := Sample.recorder)
    (Sample.precompiled true (Sample.verdict false false false))
    Sample.pairT Sample.pairV Sample.fresh [] [] 0
  = buildRootFromType (hasher := Sample.recorder) (Sample.plain true)
      Sample.pairT Sample.pairV Sample.fresh [] [] 0.
Proof.
  apply (@X5_disable_switch_bypasses_routines _ Sample.recorder
           (Sample.precompiled true (Sample.verdict false false false))
           (Sample.plain true) eq_refl eq_refl
           (fun _ _ _ => eq_refl) (fun _ => eq_refl) (fun _ => eq_refl)
           Sample.pairT eq_refl).
Defined.

(** X6: the struct elements of a sequence are traversed by
    [buildRootFromStruct] directly; neither the oracle's verdict on the
    element type nor a precompiled routine of the element type is
    consulted.  Two configurations that agree on every other type give
    the same result. *)
Theorem X6_struct_elements_bypass_fast_path :
  forall (H : Type) (hasher : Hasher H) (d1 d2 : DynSsz)
         (sourceType elemType : rtype) (name : string)
         (fs : list StructField),
    typeElem sourceType = Some elemType ->
    derefType elemType = TStruct name fs ->
    NoFastSsz d1 = NoFastSsz d2 ->
    (forall f, getSszFieldSize d1 f = getSszFieldSize d2 f) ->
    (forall f, getSszMaxSizeTag d1 f = getSszMaxSizeTag d2 f) ->
    (forall t, t <> TStruct name fs ->
       (forall sh mh,
           getFastsszHashCompatibility d1 t sh mh
           = getFastsszHashCompatibility d2 t sh mh) /\
       fastsszHashRoot d1 t = fastsszHashRoot d2 t) ->
    forall v (hh : H) maxSizeHints isArray idt,
      buildRootFromSlice d1 sourceType v hh maxSizeHints isArray idt
      = buildRootFromSlice d2 sourceType v hh maxSizeHints isArray idt.
Proof.
  intros H hasher d1 d2 sourceType elemType name fs He Hft Hoff Hsize Hmax
         Hother v hh mh isArray idt.
  remember (TStruct name fs) as ft eqn:Eft.
  set (P := fun t => (tsize t < tsize ft)%nat).
  assert (Hne : forall t, P t -> t <> ft).
  { intros t Hp Heq. subst t. unfold P in Hp. lia. }
  assert (Hrec : forall bound,
             recAgree P (buildRootFromType d1) (buildRootFromType d2) bound).
  { intros bound. apply (buildRootFromType_agree d1 d2 P); auto.
    - intros t e Hte Hp. unfold P in *.
      destruct t; try discriminate; simpl in Hte; injection Hte as <-;
        simpl in Hp; lia.
    - intros n l f Hin Hp. unfold P in *.
      pose proof (tsize_field n l f Hin). lia.
    - intros t Hp sh mh'. apply (Hother t (Hne t Hp)).
    - intros t Hp compat. rewrite !useFastSszFor_cases, Hoff. reflexivity.
    - intros t Hp compat _. apply (Hother t (Hne t Hp)). }
  unfold buildRootFromSlice.
  apply (sliceBody_agree d1 d2 (P := P)); auto.
  intros e He' n l f Hd Hin.
  rewrite He in He'. inversion He'; subst e.
  rewrite Hft, Eft in Hd. simpl in Hd. injection Hd as <- <-.
  unfold P. rewrite Eft. pose proof (tsize_field name fs f Hin).
  pose proof (tsize_derefType (Field_Type f)). lia.
Qed.

(** ** The choice of the path and the failures before the traversal *)

(** X2: the precompiled routine is chosen exactly when the verdict is
    favourable and either the switch [NoFastSsz] is off or the type is
    named [Int]. *)
Theorem X2_fast_path_choice :
  forall (d : DynSsz) (compat : fastsszCompat) (name : string),
    useFastSszFor d compat name = true <->
    isHashRoot compat = true /\
    hasDynamicSpecSizes compat = false /\
    hasDynamicSpecMax compat = false /\
    (NoFastSsz d = false \/ name = "Int"%string).
Proof.
  intros d compat name. unfold useFastSszFor.
  destruct (String.eqb_spec name "Int") as [Hn|Hn];
    destruct (NoFastSsz d), (isHashRoot compat),
      (hasDynamicSpecSizes compat), (hasDynamicSpecMax compat); simpl;
    split; intros Hx; try discriminate; try tauto;
    try (destruct Hx as [? [? [? ?]]]; discriminate);
    try (destruct Hx as [_ [_ [_ [Hx|Hx]]]];
         try discriminate; contradiction).
Qed.

(** X3: a failure of the oracle, and a failure of the chosen
    precompiled routine, end the call with the wrapped error and the
    hasher as the call found it; after a failing routine the generic
    traversal is not tried. *)
Theorem X3_failures_before_traversal :
  forall (H : Type) (hasher : Hasher H) (d : DynSsz)
         (t : rtype) (v v' : value) (hh : H) sizeHints maxSizeHints idt,
    derefValue (isPtr t) v = Some v' ->
    (forall err,
        getFastsszHashCompatibility d (derefType t) sizeHints maxSizeHints
          = inl err ->
        buildRootFromType d t v hh sizeHints maxSizeHints idt
        = Fail (FailedCheckingCompat err) hh) /\
    (forall compat routine err,
        getFastsszHashCompatibility d (derefType t) sizeHints maxSizeHints
          = inr compat ->
        useFastSszFor d compat (typeName (derefType t)) = true ->
        isValid v' = true ->
        fastsszHashRoot d (derefType t) = Some routine ->
        routine v' = inl err ->
        buildRootFromType d t v hh sizeHints maxSizeHints idt
        = Fail (FailedHashTreeRoot err) hh).
Proof.
  intros H hasher d t v v' hh sh mh idt Hv. split.
  - intros err Hc. rewrite buildRootFromType_unfold, Hv. unfold typeBody.
    rewrite Hc. reflexivity.
  - intros compat routine err Hc Huse Hvalid Hr Hres.
    rewrite buildRootFromType_unfold, Hv. unfold typeBody.
    rewrite Hc, Huse, Hvalid, Hr, Hres. reflexivity.
Qed.

Lemma X3_failures_before_traversal_witness :
  buildRootFromType (hasher := Sample.recorder)
    (Sample.failing false) Sample.pairT Sample.pairV Sample.fresh [] [] 0
  = Fail (FailedHashTreeRoot (ExternalError "routine")) Sample.fresh.
Proof.
  exact (proj2 (@X3_failures_before_traversal _ Sample.recorder
                  (Sample.failing false) Sample.pairT Sample.pairV
                  Sample.pairV Sample.fresh [] [] 0%nat eq_refl)
           (Sample.verdict true false false)
           (fun _ => inl (ExternalError "routine"))
           (ExternalError "routine") eq_refl eq_refl eq_refl eq_refl eq_refl).
Defined.

(** ** Structs *)

(** X4: a failure ends the loop over the fields.  When the fields up
    to some field already make the call fail or panic, the call on the
    struct with further fields after them ends the same way: the later
    fields are not visited and no [Merkleize] is made.  The error of
    the size resolver and of the max-size resolver of the first field
    is returned as it is, the hasher untouched. *)
Theorem X4_field_failure_ends_struct :
  forall (H : Type) (hasher : Hasher H) (d : DynSsz)
         (name name' : string) (first rest : list StructField)
         (v : value) (hh : H) (idt : nat),
    (forall o,
        buildRootFromStruct d (TStruct name first) v hh idt = o ->
        (forall hh', o <> Done hh') ->
        buildRootFromStruct d (TStruct name' (first ++ rest)) v hh idt = o) /\
    (forall f fv fv' err,
        valueField v 0 = Some fv ->
        derefValue (isPtr (Field_Type f)) fv = Some fv' ->
        getSszFieldSize d f = inl err \/
        (exists sh, getSszFieldSize d f = inr sh /\
                    getSszMaxSizeTag d f = inl err) ->
        buildRootFromStruct d (TStruct name (f :: rest)) v hh idt
        = Fail err hh).
Proof.
  intros H hasher d name name' first rest v hh idt. split.
  - intros o Hrun Hnot. unfold buildRootFromStruct, structBody in *.
    simpl in *. rewrite forEachFrom_app.
    destruct (forEachFrom (structFieldStep d (buildRootFromType d) v idt)
                          0 first hh) as [mid|e mid|]; simpl in *.
    + exfalso. apply (Hnot _ (eq_sym Hrun)).
    + exact Hrun.
    + exact Hrun.
  - intros f fv fv' err Hf Hd Herr.
    unfold buildRootFromStruct, structBody. simpl.
    unfold structFieldStep. rewrite Hf, Hd.
    destruct Herr as [Hs|[sh [Hs Hm]]].
    + rewrite Hs. reflexivity.
    + rewrite Hs, Hm. reflexivity.
Qed.

Lemma X4_field_failure_ends_struct_witness :
  buildRootFromStruct (hasher := Sample.recorder) (Sample.plain false)
    (TStruct "S" ([mkStructField "F" Sample.float64T ""]
                  ++ [mkStructField "A" Sample.uint8T ""]))
    (VStruct [VOther; VUint 1]) Sample.fresh 0
  = Fail (UnknownType Sample.float64T) Sample.fresh.
Proof.
  apply (proj1 (@X4_field_failure_ends_struct _ Sample.recorder
                  (Sample.plain false) "S" "S"
                  [mkStructField "F" Sample.float64T ""]
                  [mkStructField "A" Sample.uint8T ""]
                  (VStruct [VOther; VUint 1]) Sample.fresh 0%nat)).
  - reflexivity.
  - intros hh' Hd. discriminate.
Defined.

(** ** Sequences *)

Section SequenceFacts.

Context {H : Type} {hasher : Hasher H}.
Variable d : DynSsz.

Lemma uint64_loop (ns : list Z) :
  Forall (fun n => 0 <= n < 2 ^ 64) ns ->
  forall i (hh : H),
    forEachFrom (uint64ElemStep false) i (map VUint ns) hh
    = Done (fold_left (fun h n => AppendUint64 n h) ns hh).
Proof.
  induction 1 as [|n rest Hn _ IH]; intros i hh; simpl; [reflexivity|].
  unfold uint64ElemStep at 1. simpl. unfold wrap64.
  rewrite Z.mod_small by lia. apply IH.
Qed.

Lemma allUint_elems_length (l : list value) (bytes : list Z)
    (t : rtype) :
  valueBytes t (VSeq l) = Some bytes -> List.length l = List.length bytes.
Proof.
  destruct t; simpl; try discriminate;
    destruct (reflect.Kind_eqb (kindOf t) reflect.Uint8); try discriminate;
    intros E; symmetry; exact (allUint_length _ E).
Qed.

End SequenceFacts.

(** X7: for a sequence whose element kind has no case in the switch
    (any kind but struct, array, slice, [Uint8] and [Uint64]), the
    elements are not read: the call returns without error and ends
    with [MerkleizeWithMixin] (the hint as capacity) or [Merkleize] on
    the hasher as it found it, so that the result depends on the
    number of elements only. *)
Theorem X7_unhandled_element_kind_is_skipped :
  forall (H : Type) (hasher : Hasher H) (d : DynSsz)
         (sourceType elemType : rtype) (v : value) (elems : list value)
         (hh : H) maxSizeHints isArray idt,
    typeElem sourceType = Some elemType ->
    elementIgnored (derefType elemType) = true ->
    valueElems v = Some elems ->
    buildRootFromSlice d sourceType v hh maxSizeHints isArray idt
    = Done (finishSequence maxSizeHints (Index hh) (List.length elems)
                           (fun hint => hint) hh).
Proof.
  intros H hasher d sourceType elemType v elems hh mh isArray idt
         He Hk Hv.
  rewrite (buildRootFromSlice_unfold d _ _ _ _ _ _ He Hv).
  assert (Hsw :
    sliceSwitch d (buildRootFromType d) sourceType v (isPtr elemType)
                (derefType elemType) elems hh mh isArray idt
    = Continue hh 0).
  { unfold sliceSwitch, elementIgnored in *.
    destruct (derefType elemType) as [n k|n e|n l e|n e|n fs];
      try discriminate; try reflexivity.
    destruct k; try discriminate; reflexivity. }
  rewrite Hsw. unfold finishSequence. destruct mh; reflexivity.
Qed.

Lemma X7_unhandled_element_kind_is_skipped_witness :
  buildRootFromSlice (hasher := Sample.recorder) (Sample.plain false)
    (TSlice "" (TPlain "uint16" PUint16)) (VSeq [VUint 1; VUint 2])
    Sample.fresh [{| size := 4 |}] false 0
  = Done (MerkleizeWithMixin (Hasher := Sample.recorder) 0 2 4 Sample.fresh).
Proof.
  exact (@X7_unhandled_element_kind_is_skipped _ Sample.recorder
           (Sample.plain false) (TSlice "" (TPlain "uint16" PUint16))
           (TPlain "uint16" PUint16) (VSeq [VUint 1; VUint 2])
           [VUint 1; VUint 2] Sample.fresh [{| size := 4 |}] false 0%nat
           eq_refl eq_refl eq_refl).
Defined.

(** X8: the 64-bit unsigned elements of a sequence are appended one
    after the other, in order and without padding between them, and
    the call ends with [MerkleizeWithMixin], whose capacity is
    [calculateLimit] of the hint, the element count and 8, or with
    [Merkleize]. *)
Theorem X8_uint64_elements_are_packed :
  forall (H : Type) (hasher : Hasher H) (d : DynSsz)
         (sourceType : rtype) (elemName : string) (ns : list Z)
         (hh : H) maxSizeHints isArray idt,
    typeElem sourceType = Some (TPlain elemName PUint64) ->
    Forall (fun n => 0 <= n < 2 ^ 64) ns ->
    buildRootFromSlice d sourceType (VSeq (map VUint ns)) hh maxSizeHints
                       isArray idt
    = Done (finishSequence maxSizeHints (Index hh) (List.length ns)
              (fun hint => calculateLimit hint (Z.of_nat (List.length ns)) 8)
              (fold_left (fun h n => AppendUint64 n h) ns hh)).
Proof.
  intros H hasher d sourceType elemName ns hh mh isArray idt He Hns.
  rewrite (@buildRootFromSlice_unfold H hasher d sourceType
             (VSeq (map VUint ns)) hh mh isArray idt
             (TPlain elemName PUint64) (map VUint ns) He eq_refl).
  unfold sliceSwitch. simpl derefType. simpl isPtr.
  rewrite (uint64_loop Hns). simpl afterLoop.
  rewrite length_map. unfold finishSequence. destruct mh; reflexivity.
Qed.

Lemma X8_uint64_elements_are_packed_witness :
  buildRootFromSlice (hasher := Sample.recorder) (Sample.plain false)
    Sample.uint64sT (VSeq (map VUint [1; 2])) Sample.fresh
    [{| size := 4 |}] false 0
  = Done (finishSequence (hasher := Sample.recorder) [{| size := 4 |}]
            0 2 (fun hint => calculateLimit hint 2 8)
            (fold_left (fun h n => AppendUint64 (Hasher := Sample.recorder) n h)
                       [1; 2] Sample.fresh)).
Proof.
  apply (@X8_uint64_elements_are_packed _ Sample.recorder
           (Sample.plain false) Sample.uint64sT "uint64" [1; 2]
           Sample.fresh [{| size := 4 |}] false 0%nat eq_refl).
  repeat constructor; lia.
Defined.

(** X9: the bytes of a dynamic byte list are appended densely, the
    buffer is filled up to a chunk boundary, and the call ends with
    [MerkleizeWithMixin], whose length operand is the number of bytes
    and whose capacity is [calculateLimit] of the hint, the number of
    bytes and 1, or with [Merkleize]. *)
Theorem X9_byte_list_is_packed :
  forall (H : Type) (hasher : Hasher H) (d : DynSsz)
         (sourceType : rtype) (elemName : string) (v : value)
         (bytes : list Z) (hh : H) maxSizeHints idt,
    typeElem sourceType = Some (TPlain elemName PUint8) ->
    valueBytes sourceType v = Some bytes ->
    buildRootFromSlice d sourceType v hh maxSizeHints false idt
    = Done (finishSequence maxSizeHints (Index hh) (List.length bytes)
              (fun hint =>
                 calculateLimit hint (Z.of_nat (List.length bytes)) 1)
              (FillUpTo32 (Append bytes hh))).
Proof.
  intros H hasher d sourceType elemName v bytes hh mh idt He Hb.
  assert (Hv : exists l, v = VSeq l).
  { destruct sourceType; try discriminate; destruct v; try discriminate;
      eexists; reflexivity. }
  destruct Hv as [l ->].
  rewrite (@buildRootFromSlice_unfold H hasher d sourceType (VSeq l) hh mh
             false idt (TPlain elemName PUint8) l He eq_refl).
  unfold sliceSwitch. simpl derefType. rewrite Hb.
  rewrite (allUint_elems_length _ _ Hb).
  unfold finishSequence. destruct mh; reflexivity.
Qed.

Lemma X9_byte_list_is_packed_witness :
  buildRootFromSlice (hasher := Sample.recorder) (Sample.plain false)
    (TSlice "" Sample.uint8T) Sample.bytes4V Sample.fresh
    [{| size := 64 |}] false 0
  = Done (finishSequence (hasher := Sample.recorder) [{| size := 64 |}]
            0 4 (fun hint => calculateLimit hint 4 1)
            (FillUpTo32 (Hasher := Sample.recorder)
               (Append (Hasher := Sample.recorder) [1; 2; 3; 4]
                       Sample.fresh))).
Proof.
  exact (@X9_byte_list_is_packed _ Sample.recorder (Sample.plain false)
           (TSlice "" Sample.uint8T) "uint8" Sample.bytes4V [1; 2; 3; 4]
           Sample.fresh [{| size := 64 |}] 0%nat eq_refl eq_refl).
Defined.

(** X10: pointer elements are followed.  A sequence of non-nil
    pointers to elements of a type that is neither a pointer nor of
    kind [Uint8] gives the result of the sequence of the elements
    pointed to.  A sequence of pointers to [Uint8] elements makes the
    call panic, [Bytes()] refusing it. *)
Theorem X10_pointer_elements_are_followed :
  forall (H : Type) (hasher : Hasher H) (d : DynSsz)
         (ptrSeqType seqType : rtype) (ptrName : string) (e : rtype)
         (vs : list value) (hh : H) maxSizeHints isArray idt,
    typeElem ptrSeqType = Some (TPtr ptrName e) ->
    typeElem seqType = Some e ->
    isPtr e = false ->
    (kindOf e <> reflect.Uint8 ->
     buildRootFromSlice d ptrSeqType
       (VSeq (map (fun x => VPtr (Some x)) vs)) hh maxSizeHints isArray idt
     = buildRootFromSlice d seqType (VSeq vs) hh maxSizeHints isArray idt) /\
    (kindOf e = reflect.Uint8 ->
     forall v,
       buildRootFromSlice d ptrSeqType (VSeq v) hh maxSizeHints isArray idt
       = Panic).
Proof.
  intros H hasher d ptrSeqType seqType ptrName e vs hh mh isArray idt
         Hpe He Hnp.
  assert (Hde : derefType e = e) by (destruct e; try reflexivity; discriminate).
  split.
  - intros Hk.
    rewrite (@buildRootFromSlice_unfold H hasher d ptrSeqType
               (VSeq (map (fun x => VPtr (Some x)) vs)) hh mh isArray idt
               (TPtr ptrName e) (map (fun x => VPtr (Some x)) vs)
               Hpe eq_refl).
    rewrite (@buildRootFromSlice_unfold H hasher d seqType (VSeq vs) hh mh
               isArray idt e vs He eq_refl).
    rewrite length_map.
    assert (Hsw :
      sliceSwitch d (buildRootFromType d) ptrSeqType
        (VSeq (map (fun x => VPtr (Some x)) vs))
        (isPtr (TPtr ptrName e)) (derefType (TPtr ptrName e))
        (map (fun x => VPtr (Some x)) vs) hh mh isArray idt
      = sliceSwitch d (buildRootFromType d) seqType (VSeq vs)
                    (isPtr e) (derefType e) vs hh mh isArray idt).
    { change (isPtr (TPtr ptrName e)) with true.
      change (derefType (TPtr ptrName e)) with e.
      rewrite Hnp, Hde. unfold sliceSwitch.
      destruct e as [n k|n e'|n l e'|n e'|n fs].
      - destruct k; try reflexivity.
        + exfalso. apply Hk. reflexivity.
        + rewrite forEachFrom_map. reflexivity.
      - discriminate.
      - destruct (rtype_eqb e' byteType); [|reflexivity].
        rewrite forEachFrom_map. reflexivity.
      - destruct (rtype_eqb e' byteType); [|reflexivity].
        rewrite forEachFrom_map. reflexivity.
      - rewrite forEachFrom_map. reflexivity. }
    rewrite Hsw. reflexivity.
  - intros Hk v.
    rewrite (@buildRootFromSlice_unfold H hasher d ptrSeqType (VSeq v) hh
               mh isArray idt (TPtr ptrName e) v Hpe eq_refl).
    simpl derefType. unfold sliceSwitch.
    destruct e as [n k| | | |]; try discriminate.
    destruct k; try discriminate.
    assert (Hb : valueBytes ptrSeqType (VSeq v) = None).
    { destruct ptrSeqType; try discriminate; simpl in Hpe;
        injection Hpe as ->; reflexivity. }
    rewrite Hb. reflexivity.
Qed.

Lemma X10_pointer_elements_are_followed_witness :
  buildRootFromSlice (hasher := Sample.recorder) (Sample.plain false)
    (TSlice "" (TPtr "" Sample.uint64T))
    (VSeq (map (fun x => VPtr (Some x)) [VUint 1; VUint 2]))
    Sample.fresh [{| size := 4 |}] false 0
  = buildRootFromSlice (hasher := Sample.recorder) (Sample.plain false)
      Sample.uint64sT (VSeq [VUint 1; VUint 2]) Sample.fresh
      [{| size := 4 |}] false 0.
Proof.
  apply (proj1 (@X10_pointer_elements_are_followed _ Sample.recorder
                  (Sample.plain false) (TSlice "" (TPtr "" Sample.uint64T))
                  Sample.uint64sT "" Sample.uint64T [VUint 1; VUint 2]
                  Sample.fresh [{| size := 4 |}] false 0%nat
                  eq_refl eq_refl eq_refl)).
  discriminate.
Defined.

(** ** The test on the type name *)

Lemma hasPrefix_spec (p s : string) :
  hasPrefix p s = true <-> exists b, s = (p ++ b)%string.
Proof.
  revert s. induction p as [|a p IH]; intros s; simpl.
  - split; [intros _; exists s; reflexivity|reflexivity].
  - destruct s as [|c s]; simpl.
    + split; [discriminate|intros [b Hb]; discriminate].
    + rewrite andb_true_iff, Ascii.eqb_eq, IH. split.
      * intros [-> [b ->]]. exists b. reflexivity.
      * intros [b Hb]. injection Hb as -> ->. split; [reflexivity|].
        exists b. reflexivity.
Qed.

(** X11: the test of line 52 holds exactly when [Bitlist], or whatever
    is searched for, occurs somewhere in the name: the name is some
    text, the searched text, and some more text. *)
Theorem X11_stringsContains_is_substring :
  forall s sub : string,
    stringsContains s sub = true <->
    exists a b, s = (a ++ sub ++ b)%string.
Proof.
  intros s sub. induction s as [|c s IH].
  - simpl. rewrite orb_false_r, hasPrefix_spec. split.
    + intros [b Hb]. exists EmptyString, b. exact Hb.
    + intros [a [b Hab]]. destruct a; [exists b; exact Hab|discriminate].
  - change (stringsContains (String c s) sub)
      with (hasPrefix sub (String c s) || stringsContains s sub).
    rewrite orb_true_iff, hasPrefix_spec, IH. split.
    + intros [[b Hb]|[a [b Hab]]].
      * exists EmptyString, b. exact Hb.
      * exists (String c a), b. simpl. rewrite Hab. reflexivity.
    + intros [a [b Hab]]. destruct a as [|c' a].
      * left. exists b. exact Hab.
      * right. simpl in Hab. injection Hab as -> ->.
        exists a, b. reflexivity.
Qed.

(** ** Well-typed values *)

Lemma conforms_struct (n : string) (fs : list StructField) (v : value) :
  conforms (TStruct n fs) v = true ->
  exists ws, v = VStruct ws /\
             Forall2 (fun f w => conforms (Field_Type f) w = true) fs ws.
Proof.
  destruct v as [| | | |ws| |]; try discriminate. simpl.
  intros Hc. exists ws. split; [reflexivity|].
  revert ws Hc. induction fs as [|f fs IH]; intros [|w ws] Hc;
    try (destruct f; discriminate); try discriminate.
  - constructor.
  - destruct f as [fn ft fg]. apply andb_true_iff in Hc.
    destruct Hc as [Hw Hrest]. constructor; [exact Hw|apply IH; exact Hrest].
Qed.

Lemma conforms_sequence (t e : rtype) (v : value) :
  isSequence t = true ->
  typeElem t = Some e ->
  conforms t v = true ->
  exists l, v = VSeq l /\ forallb (conforms e) l = true.
Proof.
  intros Hs He Hc.
  destruct t as [n k|n e'|n len e'|n e'|n fs]; try discriminate;
    simpl in He; injection He as ->;
    destruct v as [| | |l| | |]; try discriminate; simpl in Hc;
    exists l; (split; [reflexivity|]).
  - apply andb_true_iff in Hc. apply Hc.
  - exact Hc.
Qed.

Lemma deref_conforming (t : rtype) (v : value) :
  conforms t v = true ->
  fullyValid v = true ->
  exists v', derefValue (isPtr t) v = Some v' /\
             conforms (derefType t) v' = true /\ fullyValid v' = true.
Proof.
  intros Hc Hf.
  destruct t as [n k|n e|n len e|n e|n fs];
    try (exists v; repeat split; assumption).
  - exists v. destruct k; repeat split; assumption.
  - destruct v as [| | | | |[x|]|]; try discriminate.
    exists x. repeat split; assumption.
Qed.

Lemma kind_uint8 (e : rtype) :
  reflect.Kind_eqb (kindOf e) reflect.Uint8 = true ->
  exists n, e = TPlain n PUint8.
Proof.
  destruct e as [n k| | | |]; try discriminate.
  destruct k; try discriminate. intros _. exists n. reflexivity.
Qed.

Lemma conforming_bytes (t e : rtype) (v : value) :
  isSequence t = true ->
  typeElem t = Some e ->
  reflect.Kind_eqb (kindOf e) reflect.Uint8 = true ->
  conforms t v = true ->
  exists bytes, valueBytes t v = Some bytes.
Proof.
  intros Hs He Hk Hc.
  destruct (conforms_sequence t v Hs He Hc) as [l [-> Hall]].
  destruct (kind_uint8 e Hk) as [n ->].
  destruct (conforms_uint8_allUint n l Hall) as [bs Hbs].
  exists bs.
  destruct t; try discriminate; simpl in He; injection He as ->;
    simpl; exact Hbs.
Qed.

(** ** The generic traversal returns *)

Section Progress.

Context {H : Type} {hasher : Hasher H}.
Variable d : DynSsz.

Hypothesis generic_everywhere :
  forall t sh mh, exists compat,
    getFastsszHashCompatibility d t sh mh = inr compat /\
    useFastSszFor d compat (typeName t) = false.
Hypothesis sizes_resolve : forall f, exists sh, getSszFieldSize d f = inr sh.
Hypothesis maxes_resolve : forall f, exists mh, getSszMaxSizeTag d f = inr mh.

Lemma forEachFrom_total (A : Type) (body : nat -> A -> H -> outcome H)
    (items : list A) :
  (forall i x hh, In x items -> exists hh', body i x hh = Done hh') ->
  forall i hh, exists hh', forEachFrom body i items hh = Done hh'.
Proof.
  induction items as [|x rest IH]; intros Hbody i hh; simpl.
  - exists hh. reflexivity.
  - destruct (Hbody i x hh (or_introl eq_refl)) as [mid Hmid].
    rewrite Hmid. apply IH. intros j y h Hy. apply Hbody. right. exact Hy.
Qed.

Section Step.

Variable rec :
  rtype -> value -> H -> list sszSizeHint -> list sszMaxSizeHint -> nat ->
  outcome H.

Lemma recTotal_le (small large : nat) :
  (small <= large)%nat -> recTotal rec large -> recTotal rec small.
Proof. intros Hle Hok t Ht. apply Hok. lia. Qed.

Lemma sliceBody_unfold sourceType sourceValue (hh : H) maxSizeHints
    isArray idt elemType elems :
  typeElem sourceType = Some elemType ->
  valueElems sourceValue = Some elems ->
  sliceBody d rec sourceType sourceValue hh maxSizeHints isArray idt =
  match sliceSwitch d rec sourceType sourceValue
                    (isPtr elemType) (derefType elemType) elems hh
                    maxSizeHints isArray idt with
  | Return o => o
  | Continue hh' itemSize =>
      match maxSizeHints with
      | [] => Done (Merkleize (Index hh) hh')
      | hint0 :: _ =>
          Done (MerkleizeWithMixin (Index hh) (Z.of_nat (List.length elems))
                  (if 0 <? itemSize
                   then calculateLimit (size hint0)
                          (Z.of_nat (List.length elems)) itemSize
                   else size hint0) hh')
      end
  end.
Proof.
  intros He Hv. unfold sliceBody.
  destruct sourceType; try discriminate; simpl in He; inversion He; subst;
    rewrite Hv; reflexivity.
Qed.

Lemma fields_loop_total (bound : nat) (vidt : nat) :
  recTotal rec bound ->
  forall fs ws,
    Forall2 (fun f w => conforms (Field_Type f) w = true) fs ws ->
    (forall f, In f fs ->
       hashable (derefType (Field_Type f)) = true /\
       (tsize (derefType (Field_Type f)) < bound)%nat) ->
    forallb fullyValid ws = true ->
    forall pre hh, exists mid,
      forEachFrom (structFieldStep d rec (VStruct (pre ++ ws)) vidt)
                  (List.length pre) fs hh = Done mid.
Proof.
  intros Hrec fs ws Hfw.
  induction Hfw as [|f w fs ws Hw Hrest IH]; intros Hfs Hvalid pre hh.
  - exists hh. reflexivity.
  - simpl in Hvalid. apply andb_true_iff in Hvalid.
    destruct Hvalid as [Hwv Hwsv].
    destruct (Hfs f (or_introl eq_refl)) as [Hh Hlt].
    simpl. unfold structFieldStep at 1. simpl valueField.
    rewrite nth_error_app2 by lia. rewrite Nat.sub_diag. simpl.
    destruct (deref_conforming _ _ Hw Hwv) as [fv' [Hd [Hc' Hv']]].
    rewrite Hd.
    destruct (sizes_resolve f) as [sh Hs]. rewrite Hs.
    destruct (maxes_resolve f) as [mh Hm]. rewrite Hm.
    destruct (Hrec _ Hlt Hh fv' Hc' Hv' hh sh mh (vidt + 2)%nat)
      as [mid Hmid].
    rewrite Hmid.
    specialize (IH (fun g Hg => Hfs g (or_intror Hg)) Hwsv
                   (pre ++ [w]) mid).
    rewrite <- app_assoc in IH. simpl in IH.
    rewrite length_app in IH. simpl in IH.
    rewrite Nat.add_1_r in IH. exact IH.
Qed.

Lemma structBody_total (n : string) (fs : list StructField) (v : value)
    (hh : H) (idt : nat) :
  forallb (fun f => hashable (derefType (Field_Type f))) fs = true ->
  conforms (TStruct n fs) v = true ->
  fullyValid v = true ->
  recTotal rec (tsize (TStruct n fs)) ->
  exists hh', structBody d rec (TStruct n fs) v hh idt = Done hh'.
Proof.
  intros Hh Hc Hv Hrec.
  destruct (conforms_struct _ _ _ Hc) as [ws [-> Hfw]].
  unfold structBody. simpl derefValue. simpl derefType.
  destruct (fields_loop_total idt Hrec Hfw) with (pre := @nil value)
                                                  (hh := hh)
    as [mid Hmid].
  - intros f Hin. split.
    + rewrite forallb_forall in Hh. apply Hh. exact Hin.
    + pose proof (tsize_field n fs f Hin).
      pose proof (tsize_derefType (Field_Type f)). lia.
  - exact Hv.
  - simpl in Hmid. rewrite Hmid. simpl. eexists. reflexivity.
Qed.

Lemma sliceBody_total (t : rtype) (v : value) (hh : H) maxSizeHints
    isArray idt :
  isSequence t = true ->
  stringsContains (typeName t) "Bitlist" = false ->
  hashable t = true ->
  conforms t v = true ->
  fullyValid v = true ->
  recTotal rec (tsize t) ->
  exists hh', sliceBody d rec t v hh maxSizeHints isArray idt = Done hh'.
Proof.
  intros Hseq Hname Hh Hc Hv Hrec.
  assert (He : exists e, typeElem t = Some e /\ (tsize e < tsize t)%nat).
  { destruct t as [n k| | | |]; try discriminate;
      try (eexists; split; [reflexivity|simpl; lia]).
    destruct k; discriminate. }
  destruct He as [e [He Hlt]].
  assert (Hh' :
    match derefType e with
    | TStruct _ fs =>
        forallb (fun f => hashable (derefType (Field_Type f))) fs
    | TArray _ _ it | TSlice _ it => rtype_eqb it byteType
    | TPlain _ PUint8 => negb (isPtr e)
    | TPlain _ _ => true
    | TPtr _ _ => true
    end = true).
  { destruct t; try discriminate; simpl in He; injection He as ->;
      simpl in Hh, Hname; rewrite Hname in Hh; exact Hh. }
  destruct (conforms_sequence t v Hseq He Hc) as [l [-> Hall]].
  simpl in Hv.
  assert (Helem : forall x, In x l ->
            exists fv, derefValue (isPtr e) x = Some fv /\
                       conforms (derefType e) fv = true /\
                       fullyValid fv = true).
  { intros x Hx. apply deref_conforming.
    - rewrite forallb_forall in Hall. apply Hall. exact Hx.
    - rewrite forallb_forall in Hv. apply Hv. exact Hx. }
  assert (Hfinish : forall sw,
    (exists o, sw = Return o /\ exists hh', o = Done hh') \/
    (exists hh1 sz, sw = Continue hh1 sz) ->
    exists hh',
      match sw with
      | Return o => o
      | Continue hh1 itemSize =>
          match maxSizeHints with
          | [] => Done (Merkleize (Index hh) hh1)
          | hint0 :: _ =>
              Done (MerkleizeWithMixin (Index hh)
                      (Z.of_nat (List.length l))
                      (if 0 <? itemSize
                       then calculateLimit (size hint0)
                              (Z.of_nat (List.length l)) itemSize
                       else size hint0) hh1)
          end
      end = Done hh').
  { intros sw [[o [-> [hh' ->]]]|[hh1 [sz ->]]].
    - exists hh'. reflexivity.
    - destruct maxSizeHints; eexists; reflexivity. }
  assert (Hloop : forall body sz,
    (forall i x h, In x l -> exists h', body i x h = Done h') ->
    exists hh1 sz', afterLoop (forEachFrom body 0 l hh) sz
                    = Continue hh1 sz').
  { intros body sz Hbody.
    destruct (forEachFrom_total body l Hbody 0%nat hh) as [hh1 Hrun].
    rewrite Hrun. exists hh1, sz. reflexivity. }
  rewrite (@sliceBody_unfold t (VSeq l) hh maxSizeHints isArray idt e l
             He eq_refl).
  apply Hfinish. unfold sliceSwitch.
  destruct (derefType e) as [n k|n e'|n len e'|n e'|n fs] eqn:Hde.
  - destruct k; try (right; eexists; eexists; reflexivity).
    + (* bytes *)
      apply negb_true_iff in Hh'.
      assert (Hee : e = TPlain n PUint8).
      { destruct e; try discriminate; simpl in Hde; exact Hde. }
      destruct (conforming_bytes t (VSeq l) Hseq He) as [bytes Hb].
      { rewrite Hee. reflexivity. }
      { exact Hc. }
      rewrite Hb.
      destruct isArray.
      * left. eexists. split; [reflexivity|]. eexists. reflexivity.
      * right. eexists. eexists. reflexivity.
    + (* 64-bit integers *)
      right. apply Hloop. intros i x h Hx.
      destruct (Helem x Hx) as [fv [Hd [Hcf _]]].
      unfold uint64ElemStep. rewrite Hd.
      destruct fv; try discriminate. simpl. eexists. reflexivity.
  - right. eexists. eexists. reflexivity.
  - rewrite Hh'. right. apply Hloop. intros i x h Hx.
    destruct (Helem x Hx) as [fv [Hd [Hcf _]]].
    unfold byteSeqElemStep. rewrite Hd.
    apply rtype_eqb_byteType in Hh'. subst e'.
    destruct (conforming_bytes (TArray n len byteType) fv eq_refl eq_refl
                eq_refl Hcf) as [bytes Hb].
    rewrite Hb. destruct maxSizeHints as [|h0 [|h1 r]]; eexists; reflexivity.
  - rewrite Hh'. right. apply Hloop. intros i x h Hx.
    destruct (Helem x Hx) as [fv [Hd [Hcf _]]].
    unfold byteSeqElemStep. rewrite Hd.
    apply rtype_eqb_byteType in Hh'. subst e'.
    destruct (conforming_bytes (TSlice n byteType) fv eq_refl eq_refl
                eq_refl Hcf) as [bytes Hb].
    rewrite Hb. destruct maxSizeHints as [|h0 [|h1 r]]; eexists; reflexivity.
  - right. apply Hloop. intros i x h Hx.
    destruct (Helem x Hx) as [fv [Hd [Hcf Hvf]]].
    unfold structElemStep. rewrite Hd.
    apply structBody_total; try assumption.
    apply (recTotal_le (large := tsize t)); [|exact Hrec].
    pose proof (tsize_derefType e). rewrite Hde in *. lia.
Qed.

Lemma typeBody_total (t : rtype) (v : value) (hh : H) sizeHints
    maxSizeHints idt :
  hashable t = true ->
  conforms t v = true ->
  fullyValid v = true ->
  recTotal rec (tsize t) ->
  exists hh', typeBody d rec t v hh sizeHints maxSizeHints idt = Done hh'.
Proof.
  intros Hh Hc Hv Hrec. unfold typeBody.
  destruct (generic_everywhere t sizeHints maxSizeHints)
    as [compat [Ho Hu]].
  rewrite Ho, Hu. unfold genericRoot.
  destruct (stringsContains (typeName t) "Bitlist") eqn:Hn.
  - assert (Hb : exists bytes, valueBytes t v = Some bytes).
    { destruct t as [n k|n e|n len e|n e|n fs]; simpl in Hh, Hn;
        rewrite Hn in Hh; try discriminate;
        eapply conforming_bytes; try reflexivity; assumption. }
    destruct Hb as [bytes Hb]. rewrite Hb. eexists. reflexivity.
  - destruct t as [n k|n e|n len e|n e|n fs].
    + simpl in Hh, Hn. rewrite Hn in Hh.
      destruct k; try discriminate; destruct v; try discriminate;
        eexists; reflexivity.
    + simpl in Hh, Hn. rewrite Hn in Hh. discriminate.
    + apply sliceBody_total; try assumption. reflexivity.
    + apply sliceBody_total; try assumption. reflexivity.
    + apply structBody_total; try assumption.
      simpl in Hh, Hn. rewrite Hn in Hh. exact Hh.
Qed.

End Step.

Lemma hashable_not_pointer (t : rtype) : hashable t = true -> isPtr t = false.
Proof.
  destruct t as [n k| | | |]; try reflexivity.
  - destruct k; reflexivity.
  - simpl. destruct (stringsContains name "Bitlist"); discriminate.
Qed.

Lemma buildRootFromType_total (bound : nat) :
  recTotal (buildRootFromType d) bound.
Proof.
  induction bound as [|n IH]; intros t Ht Hh v Hc Hv hh sh mh idt; [lia|].
  rewrite buildRootFromType_unfold.
  pose proof (hashable_not_pointer t Hh) as Hnp. rewrite Hnp. simpl.
  assert (Hd : derefType t = t)
    by (destruct t; try reflexivity; discriminate).
  rewrite Hd. apply typeBody_total; try assumption.
  apply (recTotal_le (large := n)); [lia|exact IH].
Qed.

End Progress.

(** X12: the generic traversal returns on every well-formed value.
    When no precompiled routine is chosen and the resolvers of the
    field hints succeed, the call on a hashable type (the pointer at
    the top followed) and a well-typed value without nil pointer
    returns without error and without panic. *)
Theorem X12_generic_traversal_returns :
  forall (H : Type) (hasher : Hasher H) (d : DynSsz),
    (forall t sh mh, exists compat,
        getFastsszHashCompatibility d t sh mh = inr compat /\
        useFastSszFor d compat (typeName t) = false) ->
    (forall f, exists sh, getSszFieldSize d f = inr sh) ->
    (forall f, exists mh, getSszMaxSizeTag d f = inr mh) ->
    forall t v,
      hashable (derefType t) = true ->
      conforms t v = true ->
      fullyValid v = true ->
      forall (hh : H) sizeHints maxSizeHints idt,
        exists hh',
          buildRootFromType d t v hh sizeHints maxSizeHints idt = Done hh'.
Proof.
  intros H hasher d Hor Hsz Hmx t v Hh Hc Hv hh sh mh idt.
  destruct (deref_conforming t v Hc Hv) as [v' [Hd [Hc' Hv']]].
  rewrite buildRootFromType_unfold, Hd.
  apply (typeBody_total d Hor Hsz Hmx); try assumption.
  apply (buildRootFromType_total d Hor Hsz Hmx).
Qed.

Lemma X12_generic_traversal_returns_witness :
  exists hh',
    buildRootFromType (hasher := Sample.recorder) (Sample.plain false)
      (TPtr "" Sample.pairT) (VPtr (Some Sample.pairV)) Sample.fresh [] [] 0
    = Done hh'.
Proof.
  apply (@X12_generic_traversal_returns _ Sample.recorder
           (Sample.plain false)
           (fun _ _ _ => ex_intro _ (Sample.verdict false false false)
                           (conj eq_refl eq_refl))
           (fun _ => ex_intro _ [] eq_refl)
           (fun f => ex_intro _ _ eq_refl)
           (TPtr "" Sample.pairT) (VPtr (Some Sample.pairV))
           eq_refl eq_refl eq_refl).
Defined.

(** X13: a well-typed boolean or unsigned integer of 8, 16, 32 or 64
    bits is written whole on the generic path: the conversions of
    lines 86-92 lose nothing, and the size hints and max-size hints
    are not looked at. *)
Theorem X13_scalars_are_written_whole :
  forall (H : Type) (hasher : Hasher H) (d : DynSsz)
         (name : string) (k : PlainKind) (v : value) (hh hh' : H)
         sizeHints maxSizeHints idt compat,
    getFastsszHashCompatibility d (TPlain name k) sizeHints maxSizeHints
      = inr compat ->
    takesGenericPath d compat (TPlain name k) v = true ->
    stringsContains name "Bitlist" = false ->
    conforms (TPlain name k) v = true ->
    writeScalar k v hh = Some hh' ->
    buildRootFromType d (TPlain name k) v hh sizeHints maxSizeHints idt
    = Done hh'.
Proof.
  intros H hasher d name k v hh hh' sh mh idt compat Hc Hg Hn Hcf Hw.
  rewrite buildRootFromType_unfold.
  assert (Hd : derefValue (isPtr (TPlain name k)) v = Some v)
    by (destruct k; reflexivity).
  rewrite Hd. simpl derefType.
  rewrite (typeBody_generic _ _ _ _ _ _ _ _ Hc Hg).
  unfold genericRoot. simpl typeName. rewrite Hn.
  destruct k; try discriminate; destruct v; try discriminate;
    simpl in Hw; injection Hw as <-; simpl; try reflexivity;
    simpl in Hcf; apply andb_true_iff in Hcf; destruct Hcf as [Hlo Hhi];
    apply Z.leb_le in Hlo; apply Z.ltb_lt in Hhi;
    unfold wrapTo; rewrite Z.mod_small by lia; reflexivity.
Qed.

Lemma X13_scalars_are_written_whole_witness :
  buildRootFromType (hasher := Sample.recorder) (Sample.plain false)
    Sample.uint64T (VUint 7) Sample.fresh [{| hintSize := 3 |}]
    [{| size := 9 |}] 0
  = Done (PutUint64 (Hasher := Sample.recorder) 7 Sample.fresh).
Proof.
  exact (@X13_scalars_are_written_whole _ Sample.recorder
           (Sample.plain false) "uint64" PUint64 (VUint 7) Sample.fresh
           (PutUint64 (Hasher := Sample.recorder) 7 Sample.fresh)
           [{| hintSize := 3 |}] [{| size := 9 |}] 0%nat
           (Sample.verdict false false false)
           eq_refl eq_refl eq_refl eq_refl eq_refl).
Defined.

Lemma rtype_eqb_EmptyT (t : rtype) :
  rtype_eqb t Sample.EmptyT = true -> t = Sample.EmptyT.
Proof.
  destruct t as [| | | |n fs]; try discriminate. simpl.
  intros E. apply andb_true_iff in E. destruct E as [En Ef].
  apply String.eqb_eq in En. subst n.
  destruct fs as [|[fn ft fg] r]; [reflexivity|discriminate].
Qed.

Lemma X6_struct_elements_bypass_fast_path_witness :
  buildRootFromSlice (hasher := Sample.recorder)
    (Sample.onlyFor Sample.EmptyT) (TSlice "" Sample.EmptyT)
    (VSeq [VStruct []; VStruct []]) Sample.fresh [{| size := 4 |}] false 0
  = buildRootFromSlice (hasher := Sample.recorder) (Sample.plain false)
      (TSlice "" Sample.EmptyT) (VSeq [VStruct []; VStruct []])
      Sample.fresh [{| size := 4 |}] false 0.
Proof.
  apply (@X6_struct_elements_bypass_fast_path _ Sample.recorder
           (Sample.onlyFor Sample.EmptyT) (Sample.plain false)
           (TSlice "" Sample.EmptyT) Sample.EmptyT "Empty" []
           eq_refl eq_refl eq_refl (fun _ => eq_refl) (fun _ => eq_refl)).
  intros t Hne.
  destruct (rtype_eqb t Sample.EmptyT) eqn:E.
  - apply rtype_eqb_EmptyT in E. contradiction.
  - unfold Sample.onlyFor. simpl. rewrite E. split; reflexivity.
Defined.

(** ** The errors that can come out *)

Section Errors.

Context {H : Type} {hasher : Hasher H}.
Variable d : DynSsz.

Lemma forEachFrom_fails (A : Type) (body : nat -> A -> H -> outcome H)
    (items : list A) :
  (forall i x hh, In x items -> failsWithOrigin d (body i x hh)) ->
  forall i hh, failsWithOrigin d (forEachFrom body i items hh).
Proof.
  induction items as [|x rest IH]; intros Hbody i hh e hh' Hrun;
    simpl in Hrun; [discriminate|].
  destruct (body i x hh) as [mid|e0 mid|] eqn:Hstep; try discriminate.
  - apply (IH (fun j y h Hy => Hbody j y h (or_intror Hy)) (S i) mid e hh').
    exact Hrun.
  - injection Hrun as -> ->.
    apply (Hbody i x hh (or_introl eq_refl) e hh' Hstep).
Qed.

Lemma afterLoop_fails (o : outcome H) (sz : Z) :
  failsWithOrigin d o ->
  match afterLoop o sz with
  | Return o' => failsWithOrigin d o'
  | Continue _ _ => True
  end.
Proof. destruct o; simpl; intros Ho; try exact I; exact Ho. Qed.

Section Step.

Variable rec :
  rtype -> value -> H -> list sszSizeHint -> list sszMaxSizeHint -> nat ->
  outcome H.

Lemma recFails_le (small large : nat) :
  (small <= large)%nat -> recFails d rec large -> recFails d rec small.
Proof. intros Hle Hok t Ht. apply Hok. lia. Qed.

Lemma structBody_fails (t : rtype) (v : value) (hh : H) (idt : nat) :
  recFails d rec (tsize (derefType t)) ->
  failsWithOrigin d (structBody d rec t v hh idt).
Proof.
  intros Hrec e hh' Hrun. unfold structBody in Hrun.
  destruct (derefValue (isPtr t) v) as [v'|]; [|discriminate].
  destruct (derefType t) as [| | | |n fs] eqn:Ht; try discriminate.
  destruct (forEachFrom (structFieldStep d rec v' idt) 0 fs hh)
    as [mid|e0 mid|] eqn:Hloop; try discriminate.
  simpl in Hrun. injection Hrun as -> ->.
  eapply forEachFrom_fails; [|exact Hloop].
  intros i f h Hin e1 h1 Hstep. unfold structFieldStep in Hstep.
  destruct (valueField v' i) as [fv|]; [|discriminate].
  destruct (derefValue (isPtr (Field_Type f)) fv) as [fv'|]; [|discriminate].
  destruct (getSszFieldSize d f) as [err|sh] eqn:Hs.
  { injection Hstep as -> ->. right. right. right. right. left.
    exists f. exact Hs. }
  destruct (getSszMaxSizeTag d f) as [err|mh] eqn:Hm.
  { injection Hstep as -> ->. right. right. right. right. right.
    exists f. exact Hm. }
  eapply Hrec; [|exact Hstep].
  pose proof (tsize_field n fs f Hin).
  pose proof (tsize_derefType (Field_Type f)). lia.
Qed.

Lemma sliceSwitch_fails (sourceType : rtype) (sourceValue : value)
    (fieldIsPtr : bool) (fieldType : rtype) (elems : list value) (hh : H)
    maxSizeHints isArray idt :
  recFails d rec (tsize fieldType) ->
  match sliceSwitch d rec sourceType sourceValue fieldIsPtr fieldType elems
                    hh maxSizeHints isArray idt with
  | Return o => failsWithOrigin d o
  | Continue _ _ => True
  end.
Proof.
  intros Hrec.
  assert (Hnone : forall o : outcome H,
             (forall e h, o <> Fail e h) -> failsWithOrigin d o).
  { intros o Ho e h Heq. exfalso. exact (Ho e h Heq). }
  assert (Hbytes : forall i x h,
    failsWithOrigin d
      (byteSeqElemStep fieldIsPtr fieldType maxSizeHints i x h)).
  { intros i x h. apply Hnone. intros e h'. unfold byteSeqElemStep.
    destruct (derefValue fieldIsPtr x); [|discriminate].
    destruct (valueBytes fieldType v); [|discriminate].
    destruct maxSizeHints as [|h0 [|h1 r]]; discriminate. }
  unfold sliceSwitch.
  destruct fieldType as [n k|n e|n l e|n e|n fs].
  - destruct k; try exact I.
    + destruct (valueBytes sourceType sourceValue).
      * destruct isArray; [|exact I]. apply Hnone. discriminate.
      * apply Hnone. discriminate.
    + apply afterLoop_fails. apply forEachFrom_fails.
      intros i x h _. apply Hnone. intros e h'. unfold uint64ElemStep.
      destruct (derefValue fieldIsPtr x); [|discriminate].
      destruct (valueUint v); discriminate.
  - exact I.
  - destruct (rtype_eqb e byteType).
    + apply afterLoop_fails. apply forEachFrom_fails.
      intros i x h _. apply Hbytes.
    + intros e0 h Hf. injection Hf as <- _.
      right. right. right. left. eexists. reflexivity.
  - destruct (rtype_eqb e byteType).
    + apply afterLoop_fails. apply forEachFrom_fails.
      intros i x h _. apply Hbytes.
    + intros e0 h Hf. injection Hf as <- _.
      right. right. right. left. eexists. reflexivity.
  - apply afterLoop_fails. apply forEachFrom_fails.
    intros i x h _. unfold structElemStep.
    destruct (derefValue fieldIsPtr x) as [fv|].
    + apply structBody_fails. exact Hrec.
    + apply Hnone. discriminate.
Qed.

Lemma sliceBody_fails (t : rtype) (v : value) (hh : H) maxSizeHints isArray
    idt :
  recFails d rec (tsize t) ->
  failsWithOrigin d (sliceBody d rec t v hh maxSizeHints isArray idt).
Proof.
  intros Hrec e hh' Hrun. unfold sliceBody in Hrun.
  assert (Hgo : forall elemType,
    (tsize elemType < tsize t)%nat ->
    match valueElems v with
    | Some elems =>
        match sliceSwitch d rec t v (isPtr elemType) (derefType elemType)
                          elems hh maxSizeHints isArray idt with
        | Return o => o
        | Continue hh1 itemSize =>
            match maxSizeHints with
            | [] => Done (Merkleize (Index hh) hh1)
            | hint0 :: _ =>
                Done (MerkleizeWithMixin (Index hh)
                        (Z.of_nat (List.length elems))
                        (if 0 <? itemSize
                         then calculateLimit (size hint0)
                                (Z.of_nat (List.length elems)) itemSize
                         else size hint0) hh1)
            end
        end
    | None => Panic
    end = Fail e hh' -> errorOrigin d e).
  { intros elemType Hlt Hd.
    destruct (valueElems v) as [elems|]; [|discriminate].
    assert (Hrec' : recFails d rec (tsize (derefType elemType))).
    { apply (recFails_le (large := tsize t)); [|exact Hrec].
      pose proof (tsize_derefType elemType). lia. }
    pose proof (sliceSwitch_fails t v (isPtr elemType) (derefType elemType)
                  elems hh maxSizeHints isArray idt Hrec') as Hsw.
    destruct (sliceSwitch d rec t v (isPtr elemType) (derefType elemType)
                          elems hh maxSizeHints isArray idt) as [o|h1 sz].
    - exact (Hsw e hh' Hd).
    - destruct maxSizeHints; discriminate. }
  destruct t as [n k|n e0|n l e0|n e0|n fs]; try discriminate;
    apply (Hgo e0); simpl; try lia; exact Hrun.
Qed.

Lemma typeBody_fails (t : rtype) (v : value) (hh : H) sizeHints maxSizeHints
    idt :
  recFails d rec (tsize t) ->
  failsWithOrigin d (typeBody d rec t v hh sizeHints maxSizeHints idt).
Proof.
  intros Hrec e hh' Hrun. unfold typeBody in Hrun.
  assert (Hgen : genericRoot d rec t v hh maxSizeHints idt = Fail e hh' ->
                 errorOrigin d e).
  { clear Hrun. intros Hrun. unfold genericRoot in Hrun.
    destruct (stringsContains (typeName t) "Bitlist").
    - destruct (valueBytes t v); discriminate.
    - destruct t as [n k|n e0|n l e0|n e0|n fs].
      + destruct k;
          try (injection Hrun as <- _; right; right; left;
               eexists; reflexivity);
          try (destruct (valueBool v); discriminate);
          destruct (valueUint v); discriminate.
      + injection Hrun as <- _. right. right. left. eexists. reflexivity.
      + eapply sliceBody_fails; [exact Hrec|exact Hrun].
      + eapply sliceBody_fails; [exact Hrec|exact Hrun].
      + eapply structBody_fails; [|exact Hrun].
        exact (recFails_le (Nat.le_refl _) Hrec). }
  destruct (getFastsszHashCompatibility d t sizeHints maxSizeHints)
    as [err|compat] eqn:Ho.
  { injection Hrun as <- _. left. exists t, sizeHints, maxSizeHints, err.
    split; [exact Ho|reflexivity]. }
  destruct (useFastSszFor d compat (typeName t)); [|exact (Hgen Hrun)].
  destruct (isValid v); [|discriminate].
  destruct (fastsszHashRoot d t) as [routine|] eqn:Hr; [|exact (Hgen Hrun)].
  destruct (routine v) as [err|root] eqn:Hres; [|discriminate].
  injection Hrun as <- _. right. left. exists t, routine, v, err.
  repeat split; assumption.
Qed.

End Step.

Lemma buildRootFromType_fails (bound : nat) :
  recFails d (buildRootFromType d) bound.
Proof.
  induction bound as [|n IH]; intros t Ht; [lia|].
  intros v hh sh mh idt e hh' Hrun.
  rewrite buildRootFromType_unfold in Hrun.
  destruct (derefValue (isPtr t) v) as [v'|]; [|discriminate].
  eapply typeBody_fails; [|exact Hrun].
  apply (recFails_le (large := n)); [|exact IH].
  pose proof (tsize_derefType t). lia.
Qed.

End Errors.

(** X14: every error the three functions return is the wrapped error
    of the oracle, the wrapped error of a precompiled routine, the
    error for a type without rule, the error for a nested sequence
    that is not of bytes, or the error of a resolver of field hints as
    the resolver gave it; an error from deep in the value reaches the
    caller as it was raised. *)
Theorem X14_errors_have_an_origin :
  forall (H : Type) (hasher : Hasher H) (d : DynSsz),
    (forall t v (hh : H) sizeHints maxSizeHints idt e hh',
        buildRootFromType d t v hh sizeHints maxSizeHints idt = Fail e hh' ->
        errorOrigin d e) /\
    (forall t v (hh : H) idt e hh',
        buildRootFromStruct d t v hh idt = Fail e hh' -> errorOrigin d e) /\
    (forall t v (hh : H) maxSizeHints isArray idt e hh',
        buildRootFromSlice d t v hh maxSizeHints isArray idt = Fail e hh' ->
        errorOrigin d e).
Proof.
  intros H hasher d. split; [|split].
  - intros t v hh sh mh idt e hh' Hrun.
    exact (@buildRootFromType_fails H hasher d (S (tsize t)) t
             (Nat.lt_succ_diag_r _) v hh sh mh idt e hh' Hrun).
  - intros t v hh idt e hh' Hrun.
    eapply structBody_fails; [|exact Hrun]. apply buildRootFromType_fails.
  - intros t v hh mh isArray idt e hh' Hrun.
    eapply sliceBody_fails; [|exact Hrun]. apply buildRootFromType_fails.
Qed.

Lemma X14_errors_have_an_origin_witness :
  errorOrigin (Sample.plain false) (UnknownType Sample.float64T).
Proof.
  apply (proj1 (@X14_errors_have_an_origin _ Sample.recorder
                  (Sample.plain false))
           (TStruct "S" [mkStructField "F" Sample.float64T ""])
           (VStruct [VOther]) Sample.fresh [] [] 0%nat
           (UnknownType Sample.float64T) Sample.fresh).
  reflexivity.
Defined.

(** ** Edges of [buildRootFromStruct] and [buildRootFromSlice] *)

(** X15: [buildRootFromStruct] follows a pointer to a struct.  On a
    non-nil pointer it is the call on the struct pointed to; on a nil
    pointer it panics at the first field and, for a struct without
    fields, returns after [Merkleize]; on a type that is not a struct
    ([NumField] panics) it panics. *)
Theorem X15_struct_behind_pointer :
  forall (H : Type) (hasher : Hasher H) (d : DynSsz)
         (ptrName name : string) (fs : list StructField) (hh : H) (idt : nat),
    (forall x,
        buildRootFromStruct d (TPtr ptrName (TStruct name fs))
                            (VPtr (Some x)) hh idt
        = buildRootFromStruct d (TStruct name fs) x hh idt) /\
    buildRootFromStruct d (TPtr ptrName (TStruct name fs)) (VPtr None) hh idt
    = match fs with
      | [] => Done (Merkleize (Index hh) hh)
      | _ :: _ => Panic
      end /\
    (forall t v,
        kindOf (derefType t) <> reflect.Struct ->
        buildRootFromStruct d t v hh idt = Panic).
Proof.
  intros H hasher d ptrName name fs hh idt. split; [|split].
  - intros x. reflexivity.
  - destruct fs; reflexivity.
  - intros t v Hk. unfold buildRootFromStruct, structBody.
    destruct (derefValue (isPtr t) v); [|reflexivity].
    destruct (derefType t); try reflexivity.
    exfalso. apply Hk. reflexivity.
Qed.

Lemma X15_struct_behind_pointer_witness :
  buildRootFromStruct (hasher := Sample.recorder) (Sample.plain false)
    Sample.uint64sT Sample.uint64sV Sample.fresh 0 = Panic.
Proof.
  apply (proj2 (proj2 (@X15_struct_behind_pointer _ Sample.recorder
                         (Sample.plain false) "" "" [] Sample.fresh 0%nat))).
  discriminate.
Defined.

(** X16: the flag [isArray] matters for byte elements only.  For
    every other element kind the call with the flag set and the call
    with the flag clear return the same; in particular a fixed array
    with a max-size hint gets the length mixin too. *)
Theorem X16_isArray_matters_for_bytes_only :
  forall (H : Type) (hasher : Hasher H) (d : DynSsz)
         (sourceType elemType : rtype) (v : value) (hh : H)
         maxSizeHints idt,
    typeElem sourceType = Some elemType ->
    kindOf (derefType elemType) <> reflect.Uint8 ->
    buildRootFromSlice d sourceType v hh maxSizeHints true idt
    = buildRootFromSlice d sourceType v hh maxSizeHints false idt.
Proof.
  intros H hasher d sourceType elemType v hh mh idt He Hk.
  destruct (valueElems v) as [elems|] eqn:Hv.
  - rewrite !(buildRootFromSlice_unfold d _ _ _ _ _ _ He Hv).
    assert (Hsw :
      sliceSwitch d (buildRootFromType d) sourceType v (isPtr elemType)
                  (derefType elemType) elems hh mh true idt
      = sliceSwitch d (buildRootFromType d) sourceType v (isPtr elemType)
                    (derefType elemType) elems hh mh false idt).
    { unfold sliceSwitch.
      destruct (derefType elemType) as [n k| | | |]; try reflexivity.
      destruct k; try reflexivity. exfalso. apply Hk. reflexivity. }
    rewrite Hsw. reflexivity.
  - unfold buildRootFromSlice, sliceBody.
    destruct sourceType; try reflexivity; rewrite Hv; reflexivity.
Qed.

Lemma X16_isArray_matters_for_bytes_only_witness :
  buildRootFromSlice (hasher := Sample.recorder) (Sample.plain false)
    (TArray "" 2 Sample.uint64T) Sample.uint64sV Sample.fresh
    [{| size := 4 |}] true 0
  = buildRootFromSlice (hasher := Sample.recorder) (Sample.plain false)
      (TArray "" 2 Sample.uint64T) Sample.uint64sV Sample.fresh
      [{| size := 4 |}] false 0.
Proof.
  apply (@X16_isArray_matters_for_bytes_only _ Sample.recorder
           (Sample.plain false) (TArray "" 2 Sample.uint64T) Sample.uint64T
           Sample.uint64sV Sample.fresh [{| size := 4 |}] 0%nat eq_refl).
  discriminate.
Defined.

(** X17: of the max-size hints [buildRootFromSlice] reads the first
    two dimensions only; hints for further dimensions change
    nothing. *)
Theorem X17_two_dimensions_of_hints :
  forall (H : Type) (hasher : Hasher H) (d : DynSsz)
         (t : rtype) (v : value) (hh : H) maxSizeHints maxSizeHints'
         isArray idt,
    firstn 2 maxSizeHints = firstn 2 maxSizeHints' ->
    buildRootFromSlice d t v hh maxSizeHints isArray idt
    = buildRootFromSlice d t v hh maxSizeHints' isArray idt.
Proof.
  intros H hasher d t v hh mh mh' isArray idt Hsame.
  destruct mh as [|a [|b r]], mh' as [|a' [|b' r']];
    try discriminate; try reflexivity;
    simpl in Hsame; injection Hsame as <-; try reflexivity.
  subst b'.
  assert (Hstep : forall fieldIsPtr fieldType i x h,
    byteSeqElemStep fieldIsPtr fieldType (a :: b :: r) i x h
    = byteSeqElemStep fieldIsPtr fieldType (a :: b :: r') i x h).
  { intros. reflexivity. }
  unfold buildRootFromSlice, sliceBody.
  assert (Hsw : forall fieldIsPtr fieldType elems,
    sliceSwitch d (buildRootFromType d) t v fieldIsPtr fieldType elems hh
                (a :: b :: r) isArray idt
    = sliceSwitch d (buildRootFromType d) t v fieldIsPtr fieldType elems hh
                  (a :: b :: r') isArray idt).
  { intros fieldIsPtr fieldType elems. unfold sliceSwitch.
    destruct fieldType as [n k|n e|n l e|n e|n fs]; try reflexivity. }
  destruct t as [n k|n e|n l e|n e|n fs]; try reflexivity;
    (destruct (valueElems v) as [elems|]; [|reflexivity]);
    rewrite Hsw; reflexivity.
Qed.

Lemma X17_two_dimensions_of_hints_witness :
  buildRootFromSlice (hasher := Sample.recorder) (Sample.plain false)
    Sample.byteSeqsT Sample.byteSeqsV Sample.fresh
    [{| size := 8 |}; {| size := 40 |}; {| size := 1 |}] false 0
  = buildRootFromSlice (hasher := Sample.recorder) (Sample.plain false)
      Sample.byteSeqsT Sample.byteSeqsV Sample.fresh
      [{| size := 8 |}; {| size := 40 |}] false 0.
Proof.
  exact (@X17_two_dimensions_of_hints _ Sample.recorder (Sample.plain false)
           Sample.byteSeqsT Sample.byteSeqsV Sample.fresh
           [{| size := 8 |}; {| size := 40 |}; {| size := 1 |}]
           [{| size := 8 |}; {| size := 40 |}] false 0%nat eq_refl).
Defined.

Lemma X2_fast_path_choice_witness :
  useFastSszFor (Sample.plain true) (Sample.verdict true false false) "Int"
  = true.
Proof.
  apply (proj2 (X2_fast_path_choice (Sample.plain true)
                  (Sample.verdict true false false) "Int")).
  repeat split. right. reflexivity.
Defined.

Lemma X11_stringsContains_is_substring_witness :
  stringsContains "MyBitlistType" "Bitlist" = true.
Proof.
  apply (proj2 (X11_stringsContains_is_substring "MyBitlistType" "Bitlist")).
  exists "My"%string, "Type"%string. reflexivity.
Defined.
